(** * TimeSeriesDL: configuration manager, convolutional auto-encoder and
    variational auto-encoder

    A shallow embedding of
    - [TimeSeriesDL/utils/config.py] (class [Config]),
    - [TimeSeriesDL/model/ae_model.py] (class [AE]),
    - [TimeSeriesDL/model/auto_encoder/conv_vae.py] (class [ConvVAE]),
    and the properties of them that the specification states.

    Python objects that are mutated in place (the loaded configuration
    document, the model register) are modelled with explicit state passing;
    a raised exception is a value of [outcome], and the state reached before
    the raise is kept, as in Python. *)

From Stdlib Require Import ZArith SpecFloat.
From stdpp Require Import gmap strings list.

Open Scope string_scope.
Open Scope list_scope.

(** ** Exceptions and results *)

(** The built-in exceptions the modelled code can raise.  [RuntimeError]
    carries its message, [KeyError] the key that was looked up.
    [SystemError] is the interpreter's own failure: the model gives it to
    a reference that points at no object of the store, which no Python
    program holds. *)
Inductive exn : Type :=
  | RuntimeError (msg : string)
  | KeyError (key : string)
  | TypeError
  | AttributeError
  | ValueError
  | ZeroDivisionError
  | OverflowError
  | SystemError.

Inductive outcome (A : Type) : Type :=
  | Ret (a : A)
  | Raise (e : exn).
Arguments Ret {A} a.
Arguments Raise {A} e.

#[global] Instance exn_eq_dec : EqDecision exn.
Proof. solve_decision. Defined.

Definition obind {A B} (o : outcome A) (k : A → outcome B) : outcome B :=
  match o with
  | Ret a => k a
  | Raise e => Raise e
  end.

(** Computations that read and write a state [S] and may raise. *)
Definition M (S A : Type) : Type := S → outcome A * S.

Definition ret {S A} (a : A) : M S A := λ s, (Ret a, s).
Definition raise {S A} (e : exn) : M S A := λ s, (Raise e, s).
Definition bind {S A B} (c : M S A) (k : A → M S B) : M S B :=
  λ s, match c s with
       | (Ret a, s') => k a s'
       | (Raise e, s') => (Raise e, s')
       end.
Definition lift {S A} (o : outcome A) : M S A := λ s, (o, s).

Declare Scope py_scope.
Delimit Scope py_scope with py.
Notation "'let*' x ':=' c 'in' k" := (bind c (λ x, k))
  (at level 10, x pattern, c at level 100, k at level 200) : py_scope.
Notation "'let?' x ':=' c 'in' k" := (obind c (λ x, k))
  (at level 10, x pattern, c at level 100, k at level 200) : py_scope.
Open Scope py_scope.

(** ** Truth value of an object

    [if not model:] asks the object for its truth value.  [None] is false;
    a class object is true. *)
Class PyBool (A : Type) : Type := py_bool : A → bool.

(** * config.py *)

Module Config.

(** The numeric dtypes of numpy and the tensor dtypes of torch that the
    code can tell apart; the signed 8-bit ones are listed next to the
    unsigned ones. *)
Inductive np_dtype : Type :=
  | np_float16 | np_float32 | np_float64 | np_uint8 | np_int8.

Inductive torch_dtype : Type :=
  | torch_float16 | torch_float32 | torch_float64 | torch_uint8 | torch_int8.

#[global] Instance np_dtype_eq_dec : EqDecision np_dtype.
Proof. solve_decision. Defined.
#[global] Instance torch_dtype_eq_dec : EqDecision torch_dtype.
Proof. solve_decision. Defined.

(** [Config._precisions], a class attribute. *)
Definition _precisions : gmap string (np_dtype * torch_dtype) :=
  list_to_map
    [ ("float16", (np_float16, torch_float16));
      ("float32", (np_float32, torch_float32));
      ("float64", (np_float64, torch_float64));
      ("int8", (np_uint8, torch_uint8)) ].

(** *** The model register *)

Section Register.
(** [Model] is the type of the objects put in the register, with their
    truth value. *)
Context {Model : Type} `{PyBool Model}.

(** The instance state: [self.__model_register]. *)
Record t : Type := { model_register : gmap string Model }.

(** [Config.__init__] *)
Definition init : t := {| model_register := ∅ |}.

(** [Config.register_model]: [self.__model_register[name] = model_class] *)
Definition register_model (self : t) (name : string) (model_class : Model) : t :=
  {| model_register := <[name := model_class]> (model_register self) |}.

Definition not_registered_msg (name : string) : string :=
  "Model of type " +:+ name +:+ " is not registered.".

(** [Config.get_model]: [.get(name, None)], then [if not model: raise]. *)
Definition get_model (self : t) (name : string) : outcome Model :=
  match model_register self !! name with
  | None => Raise (RuntimeError (not_registered_msg name))
  | Some model =>
      if negb (py_bool model)
      then Raise (RuntimeError (not_registered_msg name))
      else Ret model
  end.

(** The register after a run of [register_model] calls on a fresh
    [Config], oldest first. *)
Definition registrations (calls : list (string * Model)) : t :=
  foldl (λ self c, register_model self c.1 c.2) init calls.
End Register.
Arguments t : clear implicits.

(** *** Configuration documents

    [yaml.safe_load] builds dicts and lists, which are objects with an
    identity: one object can be reached along two paths (a YAML anchor and
    its alias), and [_set_precision] writes into the objects it is given.
    The document therefore lives in a store of objects, and a value holds
    a container by reference. *)
Definition loc : Type := positive.

Inductive value : Type :=
  | VNone
  | VBool (b : bool)
  | VInt (z : Z)
  | VFloat (f : spec_float)
  | VStr (s : string)
  | VRef (l : loc)                (* a dict or a list *)
  | VNumpy (d : np_dtype)         (* what [_set_precision] writes *)
  | VTorch (d : torch_dtype).

(** The keys of a mapping are its string keys: the code looks up
    ["precision"], ["model"] and ["dataset"], and a key of another type
    is equal to none of them.  A YAML set behaves as a list in every
    operation below. *)
Inductive object : Type :=
  | ODict (items : gmap string value)
  | OList (items : list value).

Abbreviation store := (gmap loc object).

(** [k in d.keys()] *)
Definition keys_contains (d : value) (k : string) : M store bool := λ σ,
  match d with
  | VRef l =>
      match σ !! l with
      | Some (ODict items) => (Ret (bool_decide (is_Some (items !! k))), σ)
      | Some (OList _) => (Raise AttributeError, σ)
      | None => (Raise SystemError, σ)
      end
  | _ => (Raise AttributeError, σ)
  end.

(** [d[k]] for a string [k] *)
Definition getitem (d : value) (k : string) : M store value := λ σ,
  match d with
  | VRef l =>
      match σ !! l with
      | Some (ODict items) =>
          match items !! k with
          | Some v => (Ret v, σ)
          | None => (Raise (KeyError k), σ)
          end
      | Some (OList _) => (Raise TypeError, σ)
      | None => (Raise SystemError, σ)
      end
  | _ => (Raise TypeError, σ)
  end.

(** [d[k] = v] for a string [k]: the object behind [d] is updated in place *)
Definition setitem (d : value) (k : string) (v : value) : M store unit := λ σ,
  match d with
  | VRef l =>
      match σ !! l with
      | Some (ODict items) => (Ret (), <[l := ODict (<[k := v]> items)]> σ)
      | Some (OList _) => (Raise TypeError, σ)
      | None => (Raise SystemError, σ)
      end
  | _ => (Raise TypeError, σ)
  end.

(** [self._precisions.get(key, None)]: the key is hashed first, and a dict
    or a list cannot be. *)
Definition precisions_get (key : value) : outcome (option (np_dtype * torch_dtype)) :=
  match key with
  | VStr name => Ret (_precisions !! name)
  | VRef _ => Raise TypeError
  | _ => Ret None
  end.

(** [Config._set_precision].  A found entry is a pair, which is true in
    [if not precisions]. *)
Definition _set_precision (d : value) : M store value :=
  let* has_precision := keys_contains d "precision" in
  if negb has_precision then ret d
  else
    let* key := getitem d "precision" in
    let* precisions := lift (precisions_get key) in
    match precisions with
    | None => ret d
    | Some precisions =>
        let* model := getitem d "model" in
        let* _ := setitem model "precision" (VTorch precisions.2) in
        let* dataset := getitem d "dataset" in
        let* _ := setitem dataset "precision" (VNumpy precisions.1) in
        ret d
    end.

Section GetArgs.
(** [open(path)] followed by [yaml.safe_load(stream)]: the parser is not
    part of this repository.  It builds the document in the store and
    returns it, or raises. *)
Variable safe_load_file : string → M store value.

(** [Config.get_args] *)
Definition get_args (path : string) : M store value :=
  let* args := safe_load_file path in
  _set_precision args.
End GetArgs.

(** Reading a document back: the value under key [k] of the dict at [l]. *)
Definition dict_item (σ : store) (l : loc) (k : string) : option value :=
  match σ !! l with
  | Some (ODict items) => items !! k
  | _ => None
  end.

(** The store in which key [k] of the dict at [l] holds [v]. *)
Definition write_item (σ : store) (l : loc) (k : string) (v : value) : store :=
  match σ !! l with
  | Some (ODict items) => <[l := ODict (<[k := v]> items)]> σ
  | _ => σ
  end.

(** A value is a mapping when it refers to a dict of the store. *)
Definition is_mapping (σ : store) (v : value) : Prop :=
  ∃ l items, v = VRef l ∧ σ !! l = Some (ODict items).

End Config.

(** The classes that register themselves when their module is imported:
    [config.register_model("SimpleModel", AE)] and
    [config.register_model("ConvVAE", ConvVAE)]. *)
Inductive model_class : Type := AE_class | ConvVAE_class.

#[global] Instance model_class_bool : PyBool model_class := λ _, true.

(** A registered object is whatever the caller passes: [None] too. *)
#[global] Instance option_bool {A} `{PyBool A} : PyBool (option A) :=
  λ o, match o with Some a => py_bool a | None => false end.

Definition config_after_imports : Config.t model_class :=
  Config.registrations [("SimpleModel", AE_class); ("ConvVAE", ConvVAE_class)].

(** * Python floats

    A Python [float] is an IEEE 754 binary64 number: [spec_float] with a
    53-bit mantissa and [emax = 1024].  Every value below comes out of a
    rounding function, so it is in canonical form. *)

Module PyFloat.

Abbreviation float := spec_float.

Definition prec : Z := 53.
Definition emax : Z := 1024.

(** The float [m * 2^e], rounded to nearest even. *)
Definition dyadic (m e : Z) : float := binary_normalize prec emax m e false.

Definition is_infinite (x : float) : bool :=
  match x with S754_infinity _ => true | _ => false end.

Definition is_zero (x : float) : bool :=
  match x with S754_zero _ => true | _ => false end.

(** [float(z)] for an int [z], as the arithmetic operators convert an int
    operand: the nearest float, or [OverflowError] beyond the range. *)
Definition of_int (z : Z) : outcome float :=
  let x := dyadic z 0 in
  if is_infinite x then Raise OverflowError else Ret x.

(** An int as an unrounded operand of the integer division. *)
Definition exact_int (z : Z) : float :=
  match z with
  | Z0 => S754_zero false
  | Zpos p => S754_finite false p 0
  | Zneg p => S754_finite true p 0
  end.

(** [a / b] on two ints: the correctly rounded quotient. *)
Definition int_truediv (a b : Z) : outcome float :=
  if decide (b = 0%Z) then Raise ZeroDivisionError
  else
    let q := SFdiv prec emax (exact_int a) (exact_int b) in
    if is_infinite q then Raise OverflowError else Ret q.

(** [x + z], [x - z] and [x / z] on a float and an int: the int is
    converted, then the IEEE operation applies; only the division checks
    its divisor. *)
Definition add_int (x : float) (z : Z) : outcome float :=
  let? y := of_int z in
  Ret (SFadd prec emax x y).

Definition sub_int (x : float) (z : Z) : outcome float :=
  let? y := of_int z in
  Ret (SFsub prec emax x y).

Definition div_int (x : float) (z : Z) : outcome float :=
  let? y := of_int z in
  if is_zero y then Raise ZeroDivisionError
  else Ret (SFdiv prec emax x y).

(** [x > y] *)
Definition gt (x y : float) : bool := SFltb y x.

(** [x == y] *)
Definition eq (x y : float) : bool := SFeqb x y.

End PyFloat.

(** * torch modules

    What the code needs of [torch.nn]: a module owns parameters, and each
    parameter carries the [requires_grad] flag.  A fresh parameter has it
    set.  [new_Conv1d], [new_ConvTranspose1d] and [new_Linear] are the
    modules torch builds from arguments it accepts; which arguments it
    refuses is torch's own, so the code that can be stopped by a refusal
    takes the constructor as a parameter. *)

Module nn.

(** [nn.Parameter] *)
Record Param : Type := {
  shape : list Z;
  requires_grad : bool
}.

Definition new_parameter (shape : list Z) : Param :=
  {| shape := shape; requires_grad := true |}.

(** An [nn.Module] of the kinds the models are built from. *)
Inductive Layer : Type :=
  | Conv1d (in_channels out_channels kernel_size stride padding : Z)
      (weight bias : Param)
  | ConvTranspose1d (in_channels out_channels kernel_size stride padding : Z)
      (weight bias : Param)
  | Linear (in_features out_features : Z) (weight bias : Param)
  | ReLU
  | Activation (name : string) (params : list Param).

(** [nn.Conv1d(in_channels, out_channels, kernel_size, stride, padding)] *)
Definition new_Conv1d (i o k s p : Z) : Layer :=
  Conv1d i o k s p (new_parameter [o; i; k]) (new_parameter [o]).

(** [nn.ConvTranspose1d(in_channels, out_channels, kernel_size, stride, padding)] *)
Definition new_ConvTranspose1d (i o k s p : Z) : Layer :=
  ConvTranspose1d i o k s p (new_parameter [i; o; k]) (new_parameter [o]).

(** [nn.Linear(in_features, out_features)] *)
Definition new_Linear (i o : Z) : Layer :=
  Linear i o (new_parameter [o; i]) (new_parameter [o]).

(** [nn.Sequential(...)] *)
Abbreviation Sequential := (list Layer).

(** [module.parameters()] *)
Definition parameters (m : Layer) : list Param :=
  match m with
  | Conv1d _ _ _ _ _ w b => [w; b]
  | ConvTranspose1d _ _ _ _ _ w b => [w; b]
  | Linear _ _ w b => [w; b]
  | ReLU => []
  | Activation _ ps => ps
  end.

Definition seq_parameters (s : Sequential) : list Param :=
  s ≫= parameters.

(** [param.requires_grad = b] *)
Definition set_requires_grad (b : bool) (p : Param) : Param :=
  {| shape := shape p; requires_grad := b |}.

(** [for param in module.parameters(): param.requires_grad = b] *)
Definition set_module_grad (b : bool) (m : Layer) : Layer :=
  match m with
  | Conv1d i o k s p w bi =>
      Conv1d i o k s p (set_requires_grad b w) (set_requires_grad b bi)
  | ConvTranspose1d i o k s p w bi =>
      ConvTranspose1d i o k s p (set_requires_grad b w) (set_requires_grad b bi)
  | Linear i o w bi => Linear i o (set_requires_grad b w) (set_requires_grad b bi)
  | ReLU => ReLU
  | Activation n ps => Activation n (set_requires_grad b <$> ps)
  end.

Definition set_seq_grad (b : bool) (s : Sequential) : Sequential :=
  set_module_grad b <$> s.

(** The parameters that accumulate gradients. *)
Definition trainable (ps : list Param) : list Param :=
  filter (λ p, requires_grad p = true) ps.

End nn.

(** * ae_model.py *)

Module AE.
Import PyFloat.

(** What the constructor prints: the warning of the shape check, with the
    two lengths it shows. *)
Inductive printed : Type :=
  | Warning_smaller_than_latent (ef_length ls_length : float).

Record optimizer : Type := {
  lr : float;
  betas : float * float;
  gamma : float
}.

(** The instance attributes. [_writer] is the tensorboard path, or [None]
    for the [False] that is stored without logging.  [_last_activation] is
    no field of its own: the object it names is the one the constructor
    puts at the end of the decoder, so it is read there. *)
Record t : Type := {
  _writer : option string;
  _features : Z;
  _extracted_features : Z;
  _sequence_length : Z;
  _kernel_size : Z;
  _stride : Z;
  _padding : Z;
  _latent_space : Z;
  _encoder : nn.Sequential;
  _decoder : nn.Sequential;
  _optim : optimizer
}.

(** [self._last_activation]: the last module of [self._decoder], one object
    under two names. *)
Definition _last_activation (self : t) : option nn.Layer :=
  last (_decoder self).

(** [((sequence_length - kernel_size + 2 * padding) / stride) + 1] *)
Definition ef_length_of (sequence_length kernel_size stride padding : Z)
    : outcome float :=
  let? quotient :=
    int_truediv (sequence_length - kernel_size + 2 * padding) stride in
  add_int quotient 1.

(** [((ef_length - kernel_size + 2 * padding) / stride) + 1] *)
Definition ls_length_of (ef_length : float) (kernel_size stride padding : Z)
    : outcome float :=
  let? difference := sub_int ef_length kernel_size in
  let? numerator := add_int difference (2 * padding) in
  let? quotient := div_int numerator stride in
  add_int quotient 1.

(** The two lengths of the shape check. *)
Definition shape_lengths (sequence_length kernel_size stride padding : Z)
    : outcome (float * float) :=
  let? ef_length := ef_length_of sequence_length kernel_size stride padding in
  let? ls_length := ls_length_of ef_length kernel_size stride padding in
  Ret (ef_length, ls_length).

(** [print(...)] *)
Definition print (line : printed) : M (list printed) unit :=
  λ out, (Ret (), out ++ [line]).

Section Init.
(** [datetime.now().strftime("%d%m%Y_%H%M%S")] at the time of the call. *)
Variable now : string.
(** [TimeSeriesDL.utils.activations.get_activation_from_string], which is
    not among the sources: it returns a module for a name, or raises. *)
Variable get_activation_from_string : string → outcome nn.Layer.
(** [nn.Conv1d(in_channels, out_channels, kernel_size, stride, padding)] and
    [nn.ConvTranspose1d(...)]: torch's constructors, which return the module
    or raise for arguments they refuse. *)
Variable Conv1d : Z → Z → Z → Z → Z → outcome nn.Layer.
Variable ConvTranspose1d : Z → Z → Z → Z → Z → outcome nn.Layer.
(** [torch.optim.AdamW(self.parameters(), lr=lr, betas=adam_betas)]: torch's
    constructor over the parameters of the modules the instance holds by
    then, the encoder and the decoder; it raises for what it refuses. *)
Variable AdamW : nn.Sequential → nn.Sequential → float → float * float → outcome unit.

(** [AE.__init__].  The tensorboard writer, [BaseModel.__init__], the loss
    and the scheduler are collaborators built by other code; of the
    optimizer and the scheduler the instance keeps the hyperparameters. *)
Definition __init__ (features sequence_length extracted_features latent_space
    kernel_size stride padding : Z) (last_activation : string)
    (lr lr_decay : float) (adam_betas : float * float) (tag : string)
    (log : bool) : M (list printed) t :=
  let writer :=
    if log then Some ("runs/" +:+ tag +:+ "/AE/" +:+ now) else None in
  let* activation := lift (get_activation_from_string last_activation) in
  let* ef_length :=
    lift (ef_length_of sequence_length kernel_size stride padding) in
  let* ls_length := lift (ls_length_of ef_length kernel_size stride padding) in
  let* _ :=
    if gt ef_length ls_length
    then print (Warning_smaller_than_latent ef_length ls_length)
    else ret () in
  let* conv_1 :=
    lift (Conv1d features extracted_features kernel_size stride padding) in
  let* conv_2 :=
    lift (Conv1d extracted_features latent_space kernel_size stride padding) in
  let encoder := [conv_1; nn.ReLU; conv_2; nn.ReLU] in
  let* deconv_1 :=
    lift (ConvTranspose1d latent_space extracted_features
            kernel_size stride padding) in
  let* deconv_2 :=
    lift (ConvTranspose1d extracted_features features
            kernel_size stride padding) in
  let decoder := [deconv_1; nn.ReLU; deconv_2; activation] in
  let* _ := lift (AdamW encoder decoder lr adam_betas) in
  ret {| _writer := writer;
         _features := features;
         _extracted_features := extracted_features;
         _sequence_length := sequence_length;
         _kernel_size := kernel_size;
         _stride := stride;
         _padding := padding;
         _latent_space := latent_space;
         _encoder := encoder;
         _decoder := decoder;
         _optim := {| lr := lr; betas := adam_betas; gamma := lr_decay |} |}.
End Init.

(** [AE.freeze]: the two loops write the flag on every parameter of the
    modules of the encoder and of the decoder, the last activation among
    them. *)
Definition freeze (self : t) (unfreeze : bool) : t :=
  {| _writer := _writer self;
     _features := _features self;
     _extracted_features := _extracted_features self;
     _sequence_length := _sequence_length self;
     _kernel_size := _kernel_size self;
     _stride := _stride self;
     _padding := _padding self;
     _latent_space := _latent_space self;
     _encoder := nn.set_seq_grad (negb unfreeze) (_encoder self);
     _decoder := nn.set_seq_grad (negb unfreeze) (_decoder self);
     _optim := _optim self |}.

Section Forward.
(** The tensors and [module(x)] are torch's. *)
Context {tensor : Type}.
Variable module_forward : nn.Layer → tensor → outcome tensor.

(** [nn.Sequential.__call__]: the modules in order, each on the result of
    the one before. *)
Definition sequential (layers : nn.Sequential) (x : tensor) : outcome tensor :=
  foldl (λ acc layer, let? x := acc in module_forward layer x) (Ret x) layers.

(** [AE.encode] *)
Definition encode (self : t) (x : tensor) : outcome tensor :=
  sequential (_encoder self) x.

(** [AE.decode] *)
Definition decode (self : t) (x : tensor) : outcome tensor :=
  sequential (_decoder self) x.

(** [AE.forward] *)
Definition forward (self : t) (x : tensor) (future_steps : Z) : outcome tensor :=
  let? x := sequential (_encoder self) x in
  sequential (_decoder self) x.
End Forward.

(** The parameters of the encoder and of the decoder. *)
Definition codec_parameters (self : t) : list nn.Param :=
  nn.seq_parameters (_encoder self) ++ nn.seq_parameters (_decoder self).

(** The formula the specification names for the two lengths:
    [floor((L - kernel + 2*pad)/stride) + 1]. *)
Definition conv_output_length_floor (L kernel stride pad : Z) : Z :=
  ((L - kernel + 2 * pad) `div` stride + 1)%Z.

End AE.

(** * torch tensors

    A tensor is its shape and its elements in row-major order.  The
    elements are floats of the format [(prec, emax)] of the tensor's dtype. *)

Module torch.

Abbreviation float := spec_float.

Record tensor : Type := {
  shape : list nat;
  data : list float
}.

Definition numel (shape : list nat) : nat := foldr Nat.mul 1 shape.

Definition is_finite (x : float) : bool :=
  match x with
  | S754_zero _ | S754_finite _ _ _ => true
  | S754_infinity _ | S754_nan => false
  end.

Definition is_nan (x : float) : bool :=
  match x with S754_nan => true | _ => false end.

(** [torch.zeros_like]-style content: every element is a zero. *)
Definition all_zeros (t : tensor) : Prop :=
  Forall (λ x, PyFloat.is_zero x = true) (data t).

(** [x.view(shape)]: the same elements under a shape of the same size. *)
Definition view (x : tensor) (shape : list nat) : outcome tensor :=
  if decide (numel shape = length (data x))
  then Ret {| shape := shape; data := data x |}
  else Raise (RuntimeError "shape is invalid for input").

(** [torch.equal a b]: same shape, and [==] on every pair of elements. *)
Definition equal (a b : tensor) : bool :=
  bool_decide (shape a = shape b)
  && bool_decide (Forall2 (λ x y, PyFloat.eq x y = true) (data a) (data b)).

Section Ops.
(** The float format of the dtype. *)
Variables prec emax : Z.
(** What torch does with two operands of different shapes (it broadcasts
    some and rejects others) is torch's own. *)
Variable broadcast : (float → float → float) → tensor → tensor → outcome tensor.
(** [torch.exp] on one element. *)
Variable exp_elem : float → float.
(** The random generator and one standard-normal draw from it. *)
Variable generator : Type.
Variable normal : generator → float * generator.

Definition pointwise (f : float → float → float) (a b : tensor) : outcome tensor :=
  if decide (shape a = shape b)
  then Ret {| shape := shape a; data := zip_with f (data a) (data b) |}
  else broadcast f a b.

(** [a + b] and [a * b] *)
Definition add (a b : tensor) : outcome tensor := pointwise (SFadd prec emax) a b.
Definition mul (a b : tensor) : outcome tensor := pointwise (SFmul prec emax) a b.

(** [c * a] for a Python float [c] *)
Definition scale (c : float) (a : tensor) : tensor :=
  {| shape := shape a; data := SFmul prec emax c <$> data a |}.

(** [torch.exp(a)] *)
Definition exp (a : tensor) : tensor :=
  {| shape := shape a; data := exp_elem <$> data a |}.

Fixpoint normals (n : nat) : M generator (list float) :=
  match n with
  | O => ret []
  | S n =>
      let* x := (λ g, (Ret (normal g).1, (normal g).2)) in
      let* xs := normals n in
      ret (x :: xs)
  end.

(** [torch.randn_like(a)]: one draw per element of [a]. *)
Definition randn_like (a : tensor) : M generator tensor :=
  let* noise := normals (length (data a)) in
  ret {| shape := shape a; data := noise |}.
End Ops.

End torch.

(** * The parent class of ConvVAE *)

Module ConvAE.

(** Modelled from the spec: the class [ConvAE] of [TimeSeriesDL.model],
    which [ConvVAE] extends, is not among the sources.  Its state is the
    encoder and decoder pair of the convolutional auto-encoder: the two
    encoder stages and the attributes that [ConvVAE] reads, and the decoder
    stack. *)
Record t : Type := {
  _encoder_1 : nn.Layer;
  _encoder_2 : nn.Layer;
  _decoder : nn.Sequential;
  _enc_2_len : Z;
  _latent_space : Z;
  _precision : Config.torch_dtype
}.

(** Modelled from the spec: [ConvAE.freeze], not among the sources.
    "[freeze(unfreeze=false)]: toggles whether encoder+decoder parameters
    accumulate gradients", with "zero trainable parameters" after
    [freeze(unfreeze=false)] and "full trainability" after
    [freeze(unfreeze=true)]. *)
Definition freeze (self : t) (unfreeze : bool) : t :=
  {| _encoder_1 := nn.set_module_grad unfreeze (_encoder_1 self);
     _encoder_2 := nn.set_module_grad unfreeze (_encoder_2 self);
     _decoder := nn.set_seq_grad unfreeze (_decoder self);
     _enc_2_len := _enc_2_len self;
     _latent_space := _latent_space self;
     _precision := _precision self |}.

Section Decode.
(** [module(x)] for a torch module. *)
Variable module_forward : nn.Layer → torch.tensor → outcome torch.tensor.

(** Modelled from the spec: [ConvAE.decode], not among the sources.
    "[decode(z) -> reconstruction]: applies the decoder stack." *)
Definition decode (self : t) (z : torch.tensor) : outcome torch.tensor :=
  foldl (λ acc layer, let? x := acc in module_forward layer x) (Ret z) (_decoder self).
End Decode.

End ConvAE.

(** * conv_vae.py *)

Module ConvVAE.
Import torch.

(** The instance: the parent's attributes and the two projection layers. *)
Record t : Type := {
  base : ConvAE.t;
  _mean_layer : nn.Layer;
  _var_layer : nn.Layer
}.

(** [ConvVAE.__init__], after [super().__init__(...)] has built [base]. *)
Definition __init__ (base : ConvAE.t) : t :=
  let size := (ConvAE._enc_2_len base * ConvAE._latent_space base)%Z in
  {| base := base;
     _mean_layer := nn.new_Linear size size;
     _var_layer := nn.new_Linear size size |}.

(** The three attributes that [_init_writer] sets; they are absent until
    it has set them. *)
Record writer_attributes : Type := {
  _tb_sub : string;
  _tb_path : string;
  _writer : string
}.

(** [ConvVAE._init_writer], at the time [now] (formatted by [strftime]):
    [name] is not used. *)
Definition _init_writer (now : string) (attributes : option writer_attributes)
    (name tag : string) (log : bool) : option writer_attributes :=
  if negb log then attributes
  else
    let tb_path := "runs/" +:+ tag +:+ "/VAE/" +:+ now in
    Some {| _tb_sub := now; _tb_path := tb_path; _writer := tb_path |}.

(** [ConvVAE.freeze]: [super().freeze(unfreeze)], then the loop over the
    parameters of the two projection layers. *)
Definition freeze (self : t) (unfreeze : bool) : t :=
  let self :=
    {| base := ConvAE.freeze (base self) unfreeze;
       _mean_layer := _mean_layer self;
       _var_layer := _var_layer self |} in
  {| base := base self;
     _mean_layer := nn.set_module_grad (negb unfreeze) (_mean_layer self);
     _var_layer := nn.set_module_grad (negb unfreeze) (_var_layer self) |}.

(** The parameters of the two projection layers. *)
Definition projection_parameters (self : t) : list nn.Param :=
  nn.parameters (_mean_layer self) ++ nn.parameters (_var_layer self).

Section Forward.
Variables prec emax : Z.
Variable broadcast : (float → float → float) → tensor → tensor → outcome tensor.
Variable exp_elem : float → float.
Variable generator : Type.
Variable normal : generator → float * generator.
(** [module(x)], [torch.swapaxes] and [torch.relu] are torch's. *)
Variable module_forward : nn.Layer → tensor → outcome tensor.
Variable swapaxes : tensor → nat → nat → outcome tensor.
Variable relu : tensor → tensor.

(** The Python float [0.5]. *)
Definition half : float := binary_normalize prec emax 1 (-1) false.

(** [ConvVAE.reparameterization].  [.to(self._device)] moves the noise and
    keeps its values. *)
Definition reparameterization (self : t) (mean var : tensor) : M generator tensor :=
  let* epsilon := randn_like generator normal var in
  let* z :=
    lift (let? scaled := mul prec emax broadcast var epsilon in
          add prec emax broadcast mean scaled) in
  ret z.

(** [ConvVAE._encode] *)
Definition _encode (self : t) (x : tensor) : outcome (tensor * tensor) :=
  let? x := swapaxes x 1 3 in
  let? x := swapaxes x 2 1 in
  let? x := module_forward (ConvAE._encoder_1 (base self)) x in
  let x := relu x in
  let? x := module_forward (ConvAE._encoder_2 (base self)) x in
  let x := relu x in
  match shape x with
  | [batch; channels; features; samples] =>
      let? x := view x [batch; features * samples * channels] in
      let? projected := module_forward (_mean_layer self) x in
      let? mean := view projected [batch; channels; features; samples] in
      let? projected := module_forward (_var_layer self) x in
      let? log_var := view projected [batch; channels; features; samples] in
      Ret (mean, log_var)
  | _ => Raise ValueError
  end.

(** [ConvVAE.encode] without [as_array] *)
Definition encode (self : t) (x : tensor) : outcome tensor :=
  let? r := _encode self x in
  Ret r.1.

(** [ConvVAE.forward] *)
Definition forward (self : t) (x : tensor) : M generator tensor :=
  let* r := lift (_encode self x) in
  let mean := r.1 in
  let log_var := r.2 in
  let* z :=
    reparameterization self mean (exp exp_elem (scale prec emax half log_var)) in
  lift (ConvAE.decode module_forward (base self) z).
End Forward.

(** Two floats are the same number when they are identical, or both a
    zero: [-0.0] and [0.0] differ in the sign bit only and compare equal. *)
Definition same_number (x y : float) : Prop :=
  x = y ∨ (PyFloat.is_zero x = true ∧ PyFloat.is_zero y = true).

End ConvVAE.

(** * Example documents

    [example_loader doc objects] reads one file, ["config.yaml"], whose
    parse is the value [doc] over the objects [objects]. *)
Definition example_loader (doc : Config.value) (objects : Config.store)
    : string → M Config.store Config.value :=
  λ path σ,
    if decide (path = "config.yaml") then (Ret doc, objects ∪ σ)
    else (Raise (RuntimeError "No such file or directory"), σ).

Section Examples.
Import Config.

(** The objects of the examples: the root mapping and two sections. *)
Definition root : loc := 1%positive.
Definition section_a : loc := 2%positive.
Definition section_b : loc := 3%positive.

(** [{precision: float32, model: {lr: 1}, dataset: {}}] *)
Definition doc_float32 : store :=
  list_to_map
    [ (root, ODict (list_to_map
         [ ("precision", VStr "float32"); ("model", VRef section_a);
           ("dataset", VRef section_b) ]));
      (section_a, ODict (list_to_map [("lr", VInt 1)]));
      (section_b, ODict ∅) ].

(** [{precision: int8, model: {}, dataset: {}}] *)
Definition doc_int8 : store :=
  list_to_map
    [ (root, ODict (list_to_map
         [ ("precision", VStr "int8"); ("model", VRef section_a);
           ("dataset", VRef section_b) ]));
      (section_a, ODict ∅);
      (section_b, ODict ∅) ].

(** [{model: {lr: 1}, dataset: {}}] *)
Definition doc_no_precision : store :=
  list_to_map
    [ (root, ODict (list_to_map
         [ ("model", VRef section_a); ("dataset", VRef section_b) ]));
      (section_a, ODict (list_to_map [("lr", VInt 1)]));
      (section_b, ODict ∅) ].

(** [{precision: float128, model: {lr: 1}, dataset: {}}] *)
Definition doc_unknown_precision : store :=
  list_to_map
    [ (root, ODict (list_to_map
         [ ("precision", VStr "float128"); ("model", VRef section_a);
           ("dataset", VRef section_b) ]));
      (section_a, ODict (list_to_map [("lr", VInt 1)]));
      (section_b, ODict ∅) ].

(** [{precision: float32, dataset: {}}]: no model section *)
Definition doc_no_model : store :=
  list_to_map
    [ (root, ODict (list_to_map
         [("precision", VStr "float32"); ("dataset", VRef section_b)]));
      (section_b, ODict ∅) ].

(** [{precision: float32, model: {lr: 1}}]: no dataset section *)
Definition doc_no_dataset : store :=
  list_to_map
    [ (root, ODict (list_to_map
         [("precision", VStr "float32"); ("model", VRef section_a)]));
      (section_a, ODict (list_to_map [("lr", VInt 1)])) ].

(** [{precision: float32, model: &s {}, dataset: *s}]: one object under
    both keys *)
Definition doc_shared_section : store :=
  list_to_map
    [ (root, ODict (list_to_map
         [ ("precision", VStr "float32"); ("model", VRef section_a);
           ("dataset", VRef section_a) ]));
      (section_a, ODict ∅) ].
End Examples.

(** An instance of the activation lookup for the examples. *)
Definition example_activations (name : string) : outcome nn.Layer :=
  if decide (name = "relu") then Ret nn.ReLU
  else if decide (name = "sigmoid") then Ret (nn.Activation "sigmoid" [])
  else Raise (RuntimeError ("Activation " +:+ name +:+ " is unknown"))%string.

(** A lookup that also knows an activation with a parameter of its own,
    as [nn.PReLU] has one. *)
Definition example_parametric_activations (name : string) : outcome nn.Layer :=
  if decide (name = "prelu")
  then Ret (nn.Activation "prelu" [nn.new_parameter [1%Z]])
  else example_activations name.

(** Instances of torch's constructors for the examples.  They refuse what
    torch refuses at its first checks: a negative size, for which no weight
    can be allocated, a negative learning rate and a beta outside of
    [0 <= beta < 1]. *)
Definition example_Conv1d (i o k s p : Z) : outcome nn.Layer :=
  if decide (0 ≤ i ∧ 0 ≤ o ∧ 0 ≤ k)%Z then Ret (nn.new_Conv1d i o k s p)
  else Raise (RuntimeError "Trying to create tensor with negative dimension").

Definition example_ConvTranspose1d (i o k s p : Z) : outcome nn.Layer :=
  if decide (0 ≤ i ∧ 0 ≤ o ∧ 0 ≤ k)%Z then Ret (nn.new_ConvTranspose1d i o k s p)
  else Raise (RuntimeError "Trying to create tensor with negative dimension").

Definition example_AdamW (encoder decoder : nn.Sequential)
    (lr : PyFloat.float) (betas : PyFloat.float * PyFloat.float) : outcome unit :=
  let zero := S754_zero false in
  let one := PyFloat.dyadic 1 0 in
  if SFleb zero lr
     && (SFleb zero betas.1 && SFltb betas.1 one)
     && (SFleb zero betas.2 && SFltb betas.2 one)
  then Ret ()
  else Raise ValueError.

(** The constructor on the parameters of the two documented examples,
    without logging, on an empty output. *)
Definition example_init (sequence_length kernel_size stride padding : Z)
    : outcome AE.t * list AE.printed :=
  AE.__init__ "01012024_120000" example_activations
    example_Conv1d example_ConvTranspose1d example_AdamW 1 sequence_length 4 2
    kernel_size stride padding "relu"
    (PyFloat.dyadic 1 (-10)) (PyFloat.dyadic 7 (-3))
    (PyFloat.dyadic 7 (-3), PyFloat.dyadic 15 (-4)) "" false [].

(** A parent instance for the examples: two encoder stages, two decoder
    stages, a latent length of 10 with 2 channels. *)
Definition example_conv_ae : ConvAE.t :=
  {| ConvAE._encoder_1 := nn.new_Conv1d 1 4 3 1 1;
     ConvAE._encoder_2 := nn.new_Conv1d 4 2 3 1 1;
     ConvAE._decoder :=
       [ nn.new_ConvTranspose1d 2 4 3 1 1; nn.ReLU;
         nn.new_ConvTranspose1d 4 1 3 1 1; nn.Activation "sigmoid" [] ];
     ConvAE._enc_2_len := 10;
     ConvAE._latent_space := 2;
     ConvAE._precision := Config.torch_float64 |}.

Definition example_vae : ConvVAE.t := ConvVAE.__init__ example_conv_ae.

(** Instances of what torch provides, for the examples: float64 tensors,
    a generator that yields 0.5 and -0.75 in turn, layers that return
    their input, [1 + x] in the place of the exponential, and an axis swap
    that is exact on tensors with one axis longer than 1. *)
Definition example_normal (g : nat) : torch.float * nat :=
  (if Nat.even g then PyFloat.dyadic 1 (-1) else PyFloat.dyadic (-3) (-2), S g).

Definition example_broadcast (f : torch.float → torch.float → torch.float)
    (a b : torch.tensor) : outcome torch.tensor :=
  Raise (RuntimeError "The size of tensor a must match the size of tensor b").

Definition example_exp (x : torch.float) : torch.float :=
  SFadd PyFloat.prec PyFloat.emax (PyFloat.dyadic 1 0) x.

Definition example_module_forward (layer : nn.Layer) (x : torch.tensor)
    : outcome torch.tensor := Ret x.

Definition swap_axes (shape : list nat) (i j : nat) : list nat :=
  match shape !! i, shape !! j with
  | Some a, Some b => <[i := b]> (<[j := a]> shape)
  | _, _ => shape
  end.

Definition example_swapaxes (x : torch.tensor) (i j : nat) : outcome torch.tensor :=
  Ret {| torch.shape := swap_axes (torch.shape x) i j; torch.data := torch.data x |}.

Definition example_relu (x : torch.tensor) : torch.tensor :=
  {| torch.shape := torch.shape x;
     torch.data :=
       (λ v, if SFltb v (S754_zero false) then S754_zero false else v)
       <$> torch.data x |}.

(** A batch of one sample with two features, and a mean with a negative
    zero next to a standard deviation of zeros. *)
Definition example_input : torch.tensor :=
  {| torch.shape := [1; 2; 1; 1];
     torch.data := [PyFloat.dyadic 1 0; PyFloat.dyadic 3 (-1)] |}.

Definition example_mean : torch.tensor :=
  {| torch.shape := [1; 1; 1; 2];
     torch.data := [S754_zero true; PyFloat.dyadic 3 (-1)] |}.

Definition example_zero_std : torch.tensor :=
  {| torch.shape := [1; 1; 1; 2];
     torch.data := [S754_zero false; S754_zero false] |}.

(** [{precision: [float32], model: {}, dataset: {}}]: a list under
    ["precision"] *)
Definition doc_list_precision : Config.store :=
  list_to_map
    [ (root, Config.ODict (list_to_map
         [ ("precision", Config.VRef 4%positive); ("model", Config.VRef section_a);
           ("dataset", Config.VRef section_b) ]));
      (section_a, Config.ODict ∅);
      (section_b, Config.ODict ∅);
      (4%positive, Config.OList [Config.VStr "float32"]) ].

(** [&r {precision: float32, model: *r, dataset: {}}]: the root is its own
    model section *)
Definition doc_root_is_model : Config.store :=
  list_to_map
    [ (root, Config.ODict (list_to_map
         [ ("precision", Config.VStr "float32"); ("model", Config.VRef root);
           ("dataset", Config.VRef section_b) ]));
      (section_b, Config.ODict ∅) ].

(** Layers on numbers, for the examples: a convolution adds one, every
    other layer raises. *)
Definition example_failing_forward (layer : nn.Layer) (x : nat) : outcome nat :=
  match layer with
  | nn.Conv1d _ _ _ _ _ _ _ => Ret (S x)
  | _ => Raise (RuntimeError "expected a 3-dimensional input")
  end.

(** * Properties *)
Section RegisterFacts.
Context {Model : Type} `{PyBool Model}.
Implicit Types (self : Config.t Model) (name : string) (C : Model).

Lemma get_model_registered self name C :
  py_bool C = true →
  Config.get_model (Config.register_model self name C) name = Ret C.
Proof.
  intros HC. unfold Config.get_model, Config.register_model; simpl.
  rewrite lookup_insert_eq. by rewrite HC.
Qed.

Lemma register_model_twice self name C C2 :
  Config.register_model (Config.register_model self name C) name C2
  = Config.register_model self name C2.
Proof.
  unfold Config.register_model; simpl. by rewrite insert_insert_eq.
Qed.

Lemma register_model_other self name name' C :
  name ≠ name' →
  Config.get_model (Config.register_model self name C) name'
  = Config.get_model self name'.
Proof.
  intros Hne. unfold Config.get_model, Config.register_model; simpl.
  by rewrite lookup_insert_ne.
Qed.

Lemma registrations_snoc (calls : list (string * Model)) name C :
  Config.registrations (calls ++ [(name, C)])
  = Config.register_model (Config.registrations calls) name C.
Proof. unfold Config.registrations. by rewrite foldl_app. Qed.

Lemma registrations_lookup_None (calls : list (string * Model)) name :
  name ∉ calls.*1 →
  Config.model_register (Config.registrations calls) !! name = None.
Proof.
  induction calls as [|[n C] calls IH] using rev_ind; intros Hnot.
  - done.
  - rewrite registrations_snoc. simpl.
    rewrite fmap_app in Hnot. simpl in Hnot.
    apply not_elem_of_app in Hnot as [Hcalls Hn].
    rewrite lookup_insert_ne; [by apply IH|].
    intros ->. apply Hn. by apply list_elem_of_singleton.
Qed.
End RegisterFacts.

(** The lookup tests the truth value of what it finds: an object that is
    false, such as [None], counts as not registered. *)
Lemma get_model_falsy (self : Config.t (option model_class)) (name : string) :
  Config.get_model (Config.register_model self name None) name
  = Raise (RuntimeError ("Model of type " +:+ name +:+ " is not registered.")).
Proof.
  unfold Config.get_model, Config.register_model; simpl.
  by rewrite lookup_insert_eq.
Qed.

(** C3: registering [C] under [name] and then looking [name] up returns
    [C] itself; registering [C2] under the same name afterwards makes the
    lookup return [C2], and the register is the one in which only [C2] was
    registered: the later call overwrites the earlier one whatever it was. *)
Theorem register_then_get {Model : Type} `{PyBool Model}
    (self : Config.t Model) (name : string) (C C2 : Model) :
  py_bool C = true → py_bool C2 = true →
  Config.get_model (Config.register_model self name C) name = Ret C
  ∧ Config.get_model
      (Config.register_model (Config.register_model self name C) name C2) name
    = Ret C2
  ∧ Config.register_model (Config.register_model self name C) name C2
    = Config.register_model self name C2.
Proof.
  intros HC HC2. split_and!.
  - by apply get_model_registered.
  - by apply get_model_registered.
  - apply register_model_twice.
Qed.

Lemma register_then_get_witness :
  Config.get_model (Config.register_model config_after_imports "ConvVAE" AE_class)
    "ConvVAE" = Ret AE_class
  ∧ Config.get_model
      (Config.register_model
         (Config.register_model config_after_imports "ConvVAE" AE_class)
         "ConvVAE" ConvVAE_class) "ConvVAE"
    = Ret ConvVAE_class
  ∧ Config.register_model
      (Config.register_model config_after_imports "ConvVAE" AE_class)
      "ConvVAE" ConvVAE_class
    = Config.register_model config_after_imports "ConvVAE" ConvVAE_class.
Proof.
  apply (register_then_get config_after_imports "ConvVAE" AE_class ConvVAE_class);
    reflexivity.
Defined.

(** C6: on a [Config] on which [name] was never registered, [get_model name]
    raises the "not registered" [RuntimeError] and returns no model. *)
Theorem get_model_never_registered {Model : Type} `{PyBool Model}
    (calls : list (string * Model)) (name : string) :
  name ∉ calls.*1 →
  Config.get_model (Config.registrations calls) name
  = Raise (RuntimeError ("Model of type " +:+ name +:+ " is not registered.")).
Proof.
  intros Hnot. unfold Config.get_model.
  by rewrite registrations_lookup_None.
Qed.

Lemma get_model_never_registered_witness :
  Config.get_model config_after_imports "ConvLSTM"
  = Raise (RuntimeError "Model of type ConvLSTM is not registered.").
Proof.
  apply (get_model_never_registered
           [("SimpleModel", AE_class); ("ConvVAE", ConvVAE_class)] "ConvLSTM").
  simpl. intros Hin.
  repeat (apply elem_of_cons in Hin as [Hin|Hin]; [discriminate Hin|]).
  by apply elem_of_nil in Hin.
Defined.

(** ** Configuration documents *)

Section DocumentFacts.
Import Config.
Implicit Types (σ : store) (d l : loc) (k : string) (v : value)
  (items : gmap string value).

Lemma dict_item_write_eq σ l k v items :
  σ !! l = Some (ODict items) →
  dict_item (write_item σ l k v) l k = Some v.
Proof.
  intros Hl. unfold dict_item, write_item. rewrite Hl.
  rewrite lookup_insert_eq. apply lookup_insert_eq.
Qed.

Lemma dict_item_write_ne σ l k v l' k' :
  ¬ (l = l' ∧ k = k') →
  dict_item (write_item σ l k v) l' k' = dict_item σ l' k'.
Proof.
  intros Hne. unfold dict_item, write_item.
  destruct (σ !! l) as [[items|xs]|] eqn:Hl; try done.
  destruct (decide (l = l')) as [->|Hl'].
  - rewrite lookup_insert_eq, Hl. apply lookup_insert_ne. naive_solver.
  - by rewrite lookup_insert_ne.
Qed.

Lemma write_item_dict σ l k v l' items :
  σ !! l' = Some (ODict items) →
  ∃ items', write_item σ l k v !! l' = Some (ODict items')
            ∧ ∀ k', k' ≠ k → items' !! k' = items !! k'.
Proof.
  intros Hl'. unfold write_item.
  destruct (σ !! l) as [[its|xs]|] eqn:Hl; eauto.
  destruct (decide (l = l')) as [->|Hne].
  - rewrite lookup_insert_eq. eexists; split; [done|].
    intros k' Hk. rewrite lookup_insert_ne by done. congruence.
  - rewrite lookup_insert_ne by done. eauto.
Qed.

(** The key is absent: the document comes back as it is. *)
Lemma set_precision_absent σ d items :
  σ !! d = Some (ODict items) →
  items !! "precision" = None →
  _set_precision (VRef d) σ = (Ret (VRef d), σ).
Proof.
  intros Hd Hp. unfold _set_precision, bind, keys_contains.
  rewrite Hd, Hp. rewrite bool_decide_eq_false_2; [done|].
  by intros [? ?].
Qed.

(** The key is present: the value under it is looked up in the table. *)
Lemma set_precision_present σ d items key :
  σ !! d = Some (ODict items) →
  items !! "precision" = Some key →
  _set_precision (VRef d) σ =
    match precisions_get key with
    | Raise e => (Raise e, σ)
    | Ret None => (Ret (VRef d), σ)
    | Ret (Some precisions) =>
        (let* model := getitem (VRef d) "model" in
         let* _ := setitem model "precision" (VTorch precisions.2) in
         let* dataset := getitem (VRef d) "dataset" in
         let* _ := setitem dataset "precision" (VNumpy precisions.1) in
         ret (VRef d)) σ
    end.
Proof.
  intros Hd Hp. unfold _set_precision, bind at 1, keys_contains.
  rewrite Hd, Hp. rewrite bool_decide_eq_true_2 by eauto. simpl.
  unfold bind at 1, getitem at 1. rewrite Hd, Hp.
  unfold bind at 1, lift.
  destruct (precisions_get key) as [[p|]|e]; done.
Qed.

(** A value that is no mapping takes no item. *)
Lemma setitem_not_mapping σ v k x :
  (∀ l, v = VRef l → is_Some (σ !! l)) →
  ¬ is_mapping σ v →
  setitem v k x σ = (Raise TypeError, σ).
Proof.
  intros Hlive Hnot. unfold setitem.
  destruct v as [| | | | |l| |]; try done.
  destruct (Hlive l eq_refl) as [[items|xs] Hl]; rewrite Hl; [|done].
  exfalso. apply Hnot. by exists l, items.
Qed.

Lemma classic_mapping σ v : is_mapping σ v ∨ ¬ is_mapping σ v.
Proof.
  destruct v as [| | | | |l| |];
    try (right; intros (? & ? & ? & ?); discriminate).
  destruct (σ !! l) as [[items|xs]|] eqn:Hl.
  - left. by exists l, items.
  - right. intros (? & ? & [= <-] & ?). congruence.
  - right. intros (? & ? & [= <-] & ?). congruence.
Qed.

(** Both sections are mappings: the two writes happen, the tensor dtype
    first, and the document is returned. *)
Lemma set_precision_resolved σ d items name np th lm ld :
  σ !! d = Some (ODict items) →
  items !! "precision" = Some (VStr name) →
  _precisions !! name = Some (np, th) →
  items !! "model" = Some (VRef lm) → is_mapping σ (VRef lm) →
  items !! "dataset" = Some (VRef ld) → is_mapping σ (VRef ld) →
  _set_precision (VRef d) σ =
    (Ret (VRef d),
     write_item (write_item σ lm "precision" (VTorch th)) ld "precision" (VNumpy np)).
Proof.
  intros Hd Hp Hreg Hm (? & mm & [= <-] & Hlm) Hds (? & md & [= <-] & Hld).
  rewrite (set_precision_present _ _ _ _ Hd Hp). simpl. rewrite Hreg. simpl.
  unfold bind at 1, getitem at 1. rewrite Hd, Hm.
  unfold bind at 1, setitem at 1. rewrite Hlm.
  assert (Hw : write_item σ lm "precision" (VTorch th)
               = <[lm:=ODict (<["precision":=VTorch th]> mm)]> σ).
  { unfold write_item. by rewrite Hlm. }
  rewrite <- Hw.
  destruct (write_item_dict σ lm "precision" (VTorch th) d items Hd)
    as (items' & Hd' & Hsame).
  destruct (write_item_dict σ lm "precision" (VTorch th) ld md Hld)
    as (md' & Hld' & _).
  clear Hw. set (σ' := write_item σ lm "precision" (VTorch th)) in *.
  unfold bind at 1, getitem. rewrite Hd', (Hsame "dataset"), Hds by done.
  unfold bind at 1, setitem, ret, write_item. by rewrite Hld'.
Qed.

(** A section is missing. *)
Lemma set_precision_no_model σ d items name p :
  σ !! d = Some (ODict items) →
  items !! "precision" = Some (VStr name) →
  _precisions !! name = Some p →
  items !! "model" = None →
  _set_precision (VRef d) σ = (Raise (KeyError "model"), σ).
Proof.
  intros Hd Hp Hreg Hm.
  rewrite (set_precision_present _ _ _ _ Hd Hp). simpl. rewrite Hreg.
  unfold bind at 1, getitem at 1. by rewrite Hd, Hm.
Qed.

Lemma set_precision_no_dataset σ d items name p lm :
  σ !! d = Some (ODict items) →
  items !! "precision" = Some (VStr name) →
  _precisions !! name = Some p →
  items !! "model" = Some (VRef lm) → is_mapping σ (VRef lm) →
  items !! "dataset" = None →
  _set_precision (VRef d) σ =
    (Raise (KeyError "dataset"), write_item σ lm "precision" (VTorch p.2)).
Proof.
  intros Hd Hp Hreg Hm (? & mm & [= <-] & Hlm) Hds.
  rewrite (set_precision_present _ _ _ _ Hd Hp). simpl. rewrite Hreg.
  unfold bind at 1, getitem at 1. rewrite Hd, Hm.
  unfold bind at 1, setitem at 1. rewrite Hlm.
  assert (Hw : write_item σ lm "precision" (VTorch p.2)
               = <[lm:=ODict (<["precision":=VTorch p.2]> mm)]> σ).
  { unfold write_item. by rewrite Hlm. }
  rewrite <- Hw.
  destruct (write_item_dict σ lm "precision" (VTorch p.2) d items Hd)
    as (items' & Hd' & Hsame).
  unfold bind at 1, getitem. by rewrite Hd', (Hsame "dataset"), Hds.
Qed.

Lemma set_precision_model_not_mapping σ d items name p v :
  σ !! d = Some (ODict items) →
  items !! "precision" = Some (VStr name) →
  _precisions !! name = Some p →
  items !! "model" = Some v →
  (∀ l, v = VRef l → is_Some (σ !! l)) →
  ¬ is_mapping σ v →
  _set_precision (VRef d) σ = (Raise TypeError, σ).
Proof.
  intros Hd Hp Hreg Hm Hlive Hnot.
  rewrite (set_precision_present _ _ _ _ Hd Hp). simpl. rewrite Hreg.
  unfold bind at 1, getitem at 1. rewrite Hd, Hm.
  unfold bind at 1. by rewrite setitem_not_mapping.
Qed.

(** A dict or a list under ["precision"] cannot be hashed. *)
Lemma set_precision_unhashable σ d items l :
  σ !! d = Some (ODict items) →
  items !! "precision" = Some (VRef l) →
  _set_precision (VRef d) σ = (Raise TypeError, σ).
Proof.
  intros Hd Hp. by rewrite (set_precision_present _ _ _ _ Hd Hp).
Qed.

(** What is loaded is no mapping: [d.keys()] fails. *)
Lemma set_precision_not_a_dict σ v :
  (∀ l, v ≠ VRef l) →
  _set_precision v σ = (Raise AttributeError, σ).
Proof.
  intros Hv. unfold _set_precision, bind, keys_contains.
  destruct v; try done. by destruct (Hv l).
Qed.

Lemma get_args_loaded load path σ σ1 v :
  load path σ = (Ret v, σ1) →
  get_args load path σ = _set_precision v σ1.
Proof. intros Hload. unfold get_args, bind. by rewrite Hload. Qed.

End DocumentFacts.

(** One object under both keys receives both writes: the numeric dtype,
    written last, is what the shared section holds. *)
Lemma shared_section_holds_numeric_dtype :
  ∃ σ2,
    Config.get_args (example_loader (Config.VRef root) doc_shared_section)
      "config.yaml" ∅ = (Ret (Config.VRef root), σ2)
    ∧ Config.dict_item σ2 section_a "precision"
      = Some (Config.VNumpy Config.np_float32).
Proof. eexists. split; reflexivity. Qed.

(** C1: for a document loaded by [get_args] that is a mapping: when
    ["precision"] is at its root with a registered name and the ["model"] and
    ["dataset"] sections are mappings, the tensor dtype is written under
    ["precision"] of the model section and the numeric dtype under
    ["precision"] of the dataset section, nothing else changes and the
    document itself is returned; when the key is absent, or its value is no
    registered name, the document is returned and the store is untouched. *)
Theorem get_args_precision_resolution
    (load : string → M Config.store Config.value) (path : string)
    (σ σ1 : Config.store) (d : Config.loc) (items : gmap string Config.value) :
  load path σ = (Ret (Config.VRef d), σ1) →
  σ1 !! d = Some (Config.ODict items) →
  (∀ name np th lm ld,
     items !! "precision" = Some (Config.VStr name) →
     Config._precisions !! name = Some (np, th) →
     items !! "model" = Some (Config.VRef lm) →
     Config.is_mapping σ1 (Config.VRef lm) →
     items !! "dataset" = Some (Config.VRef ld) →
     Config.is_mapping σ1 (Config.VRef ld) →
     ∃ σ2,
       Config.get_args load path σ = (Ret (Config.VRef d), σ2)
       ∧ Config.dict_item σ2 ld "precision" = Some (Config.VNumpy np)
       ∧ (lm ≠ ld →
          Config.dict_item σ2 lm "precision" = Some (Config.VTorch th))
       ∧ (∀ l k, ¬ (k = "precision" ∧ (l = lm ∨ l = ld)) →
          Config.dict_item σ2 l k = Config.dict_item σ1 l k))
  ∧ (items !! "precision" = None →
     Config.get_args load path σ = (Ret (Config.VRef d), σ1))
  ∧ (∀ key,
       items !! "precision" = Some key →
       Config.precisions_get key = Ret None →
       Config.get_args load path σ = (Ret (Config.VRef d), σ1)).
Proof.
  intros Hload Hd. rewrite (get_args_loaded _ _ _ _ _ Hload). split_and!.
  - intros name np th lm ld Hp Hreg Hm Hmm Hds Hmd.
    eexists. split; [by eapply set_precision_resolved|].
    destruct Hmm as (? & mm & [= <-] & Hlm).
    destruct Hmd as (? & md & [= <-] & Hld).
    split_and!.
    + destruct (write_item_dict σ1 lm "precision" (Config.VTorch th) ld md Hld)
        as (md' & Hld' & _).
      by eapply dict_item_write_eq.
    + intros Hne. rewrite dict_item_write_ne by (intros [? _]; congruence).
      by eapply dict_item_write_eq.
    + intros l k Hk.
      by rewrite !dict_item_write_ne by (intros [? ?]; apply Hk; subst; auto).
  - intros Hp. by eapply set_precision_absent.
  - intros key Hp Hkey.
    rewrite (set_precision_present _ _ _ _ Hd Hp). by rewrite Hkey.
Qed.

Lemma get_args_precision_resolution_witness :
  (∃ σ2,
     Config.get_args (example_loader (Config.VRef root) doc_float32) "config.yaml" ∅
     = (Ret (Config.VRef root), σ2)
     ∧ Config.dict_item σ2 section_b "precision"
       = Some (Config.VNumpy Config.np_float32)
     ∧ Config.dict_item σ2 section_a "precision"
       = Some (Config.VTorch Config.torch_float32)
     ∧ Config.dict_item σ2 section_a "lr" = Some (Config.VInt 1))
  ∧ Config.get_args (example_loader (Config.VRef root) doc_no_precision)
      "config.yaml" ∅
    = (Ret (Config.VRef root), doc_no_precision)
  ∧ Config.get_args (example_loader (Config.VRef root) doc_unknown_precision)
      "config.yaml" ∅
    = (Ret (Config.VRef root), doc_unknown_precision).
Proof.
  split_and!.
  - edestruct (get_args_precision_resolution
                 (example_loader (Config.VRef root) doc_float32) "config.yaml"
                 ∅ doc_float32 root) as (Hres & _ & _);
      [reflexivity|reflexivity|].
    edestruct (Hres "float32" Config.np_float32 Config.torch_float32
                 section_a section_b)
      as (σ2 & Hrun & Hdataset & Hmodel & Hframe);
      [reflexivity|reflexivity|reflexivity|by eexists _, _
      |reflexivity|by eexists _, _|].
    exists σ2. split_and!; [done|done|by apply Hmodel|].
    rewrite Hframe; [reflexivity|]. intros [? _]. discriminate.
  - edestruct (get_args_precision_resolution
                 (example_loader (Config.VRef root) doc_no_precision)
                 "config.yaml" ∅ doc_no_precision root) as (_ & Habsent & _);
      [reflexivity|reflexivity|].
    apply Habsent. reflexivity.
  - edestruct (get_args_precision_resolution
                 (example_loader (Config.VRef root) doc_unknown_precision)
                 "config.yaml" ∅ doc_unknown_precision root) as (_ & _ & Hunknown);
      [reflexivity|reflexivity|].
    apply (Hunknown (Config.VStr "float128")); reflexivity.
Defined.

(** C9: the name ["int8"] stands for the unsigned 8-bit pair
    [(np.uint8, torch.uint8)], not for the signed dtypes: a document whose
    root ["precision"] is ["int8"] comes back with [np.uint8] under
    ["precision"] of its dataset section and [torch.uint8] under
    ["precision"] of its model section. *)
Theorem int8_is_unsigned
    (load : string → M Config.store Config.value) (path : string)
    (σ σ1 : Config.store) (d lm ld : Config.loc)
    (items : gmap string Config.value) :
  load path σ = (Ret (Config.VRef d), σ1) →
  σ1 !! d = Some (Config.ODict items) →
  items !! "precision" = Some (Config.VStr "int8") →
  items !! "model" = Some (Config.VRef lm) →
  Config.is_mapping σ1 (Config.VRef lm) →
  items !! "dataset" = Some (Config.VRef ld) →
  Config.is_mapping σ1 (Config.VRef ld) →
  Config._precisions !! "int8" = Some (Config.np_uint8, Config.torch_uint8)
  ∧ Config._precisions !! "int8" ≠ Some (Config.np_int8, Config.torch_int8)
  ∧ ∃ σ2,
      Config.get_args load path σ = (Ret (Config.VRef d), σ2)
      ∧ Config.dict_item σ2 ld "precision" = Some (Config.VNumpy Config.np_uint8)
      ∧ (lm ≠ ld →
         Config.dict_item σ2 lm "precision"
         = Some (Config.VTorch Config.torch_uint8)).
Proof.
  intros Hload Hd Hp Hm Hmm Hds Hmd. split_and!; [done|done|].
  rewrite (get_args_loaded _ _ _ _ _ Hload).
  eexists. split.
  { by eapply set_precision_resolved. }
  destruct Hmm as (? & mm & [= <-] & Hlm).
  destruct Hmd as (? & md & [= <-] & Hld).
  split.
  - destruct (write_item_dict σ1 lm "precision"
                (Config.VTorch Config.torch_uint8) ld md Hld)
      as (md' & Hld' & _).
    by eapply dict_item_write_eq.
  - intros Hne. rewrite dict_item_write_ne by (intros [? _]; congruence).
    by eapply dict_item_write_eq.
Qed.

Lemma int8_is_unsigned_witness :
  ∃ σ2,
    Config.get_args (example_loader (Config.VRef root) doc_int8) "config.yaml" ∅
    = (Ret (Config.VRef root), σ2)
    ∧ Config.dict_item σ2 section_b "precision"
      = Some (Config.VNumpy Config.np_uint8)
    ∧ Config.dict_item σ2 section_a "precision"
      = Some (Config.VTorch Config.torch_uint8).
Proof.
  edestruct (int8_is_unsigned (example_loader (Config.VRef root) doc_int8)
               "config.yaml" ∅ doc_int8 root section_a section_b)
    as (_ & _ & σ2 & Hrun & Hdataset & Hmodel);
    [reflexivity|reflexivity|reflexivity|reflexivity|by eexists _, _
    |reflexivity|by eexists _, _|].
  exists σ2. split_and!; [exact Hrun|exact Hdataset|].
  apply Hmodel. discriminate.
Defined.

(** C10: when the root ["precision"] of the loaded document resolves and
    the document has no ["model"] key or no ["dataset"] key, [get_args]
    raises instead of returning the document.  Without ["model"] it is
    [KeyError] on ["model"] and nothing was written; with a model section
    that is a mapping and without ["dataset"] it is [KeyError] on
    ["dataset"], raised after the model section received its dtype; a
    ["model"] value that is no mapping is refused with [TypeError] before
    ["dataset"] is looked up. *)
Theorem get_args_missing_section
    (load : string → M Config.store Config.value) (path : string)
    (σ σ1 : Config.store) (d : Config.loc) (name : string)
    (p : Config.np_dtype * Config.torch_dtype)
    (items : gmap string Config.value) :
  load path σ = (Ret (Config.VRef d), σ1) →
  σ1 !! d = Some (Config.ODict items) →
  items !! "precision" = Some (Config.VStr name) →
  Config._precisions !! name = Some p →
  items !! "model" = None ∨ items !! "dataset" = None →
  (∀ l, items !! "model" = Some (Config.VRef l) → is_Some (σ1 !! l)) →
  ∃ e σ2,
    Config.get_args load path σ = (Raise e, σ2)
    ∧ (e = KeyError "model" ∨ e = KeyError "dataset" ∨ e = TypeError)
    ∧ (items !! "model" = None → e = KeyError "model" ∧ σ2 = σ1)
    ∧ (∀ lm, items !! "model" = Some (Config.VRef lm) →
             Config.is_mapping σ1 (Config.VRef lm) →
             e = KeyError "dataset"
             ∧ σ2 = Config.write_item σ1 lm "precision" (Config.VTorch p.2))
    ∧ (∀ v, items !! "model" = Some v → ¬ Config.is_mapping σ1 v →
            e = TypeError ∧ σ2 = σ1).
Proof.
  intros Hload Hd Hp Hreg Hmissing Hlive.
  rewrite (get_args_loaded _ _ _ _ _ Hload).
  destruct (items !! "model") as [v|] eqn:Hm.
  - destruct Hmissing as [?|Hds]; [done|].
    destruct (classic_mapping σ1 v) as [Hmap|Hnot].
    + destruct Hmap as (lm & mm & -> & Hlm).
      exists (KeyError "dataset"),
        (Config.write_item σ1 lm "precision" (Config.VTorch p.2)).
      split; [eapply set_precision_no_dataset; eauto; by exists lm, mm|].
      split; [auto|]. split; [done|]. split.
      * by intros ? [= <-] _.
      * intros ? [= <-] Hnot. destruct Hnot. by exists lm, mm.
    + exists TypeError, σ1.
      split.
      { eapply set_precision_model_not_mapping; eauto.
        intros l ->. by apply Hlive. }
      split; [auto|]. split; [done|]. split.
      * intros lm [= ->] Hmap. done.
      * by intros ? [= <-] _.
  - exists (KeyError "model"), σ1.
    split; [by eapply set_precision_no_model|].
    split; [auto|]. split; [done|]. split; intros; done.
Qed.

Lemma get_args_missing_section_witness :
  Config.get_args (example_loader (Config.VRef root) doc_no_model) "config.yaml" ∅
  = (Raise (KeyError "model"), doc_no_model)
  ∧ Config.get_args (example_loader (Config.VRef root) doc_no_dataset)
      "config.yaml" ∅
    = (Raise (KeyError "dataset"),
       Config.write_item doc_no_dataset section_a "precision"
         (Config.VTorch Config.torch_float32)).
Proof.
  split.
  - edestruct (get_args_missing_section
                 (example_loader (Config.VRef root) doc_no_model) "config.yaml"
                 ∅ doc_no_model root "float32"
                 (Config.np_float32, Config.torch_float32))
      as (e & σ2 & Hrun & _ & Hno_model & _);
      [reflexivity|reflexivity|reflexivity|reflexivity|left; reflexivity
      |intros l Hl; discriminate Hl|].
    destruct (Hno_model eq_refl) as [-> ->]. exact Hrun.
  - edestruct (get_args_missing_section
                 (example_loader (Config.VRef root) doc_no_dataset) "config.yaml"
                 ∅ doc_no_dataset root "float32"
                 (Config.np_float32, Config.torch_float32))
      as (e & σ2 & Hrun & _ & _ & Hmapping & _);
      [reflexivity|reflexivity|reflexivity|reflexivity|right; reflexivity
      |intros l Hl; injection Hl as <-; by eexists|].
    destruct (Hmapping section_a eq_refl) as [-> ->]; [by eexists _, _|].
    exact Hrun.
Defined.

(** ** The shape check of the auto-encoder *)

Section ShapeCheckFacts.
Import PyFloat.

Lemma shape_lengths_inv L k s p ef ls :
  AE.shape_lengths L k s p = Ret (ef, ls) →
  AE.ef_length_of L k s p = Ret ef ∧ AE.ls_length_of ef k s p = Ret ls.
Proof.
  unfold AE.shape_lengths, obind.
  destruct (AE.ef_length_of L k s p) as [ef'|]; [|done].
  destruct (AE.ls_length_of ef' k s p) as [ls'|] eqn:Hls; [|done].
  intros [= <- <-]. by rewrite Hls.
Qed.






(** The constructor with a known activation and computed lengths: it
    prints the warning exactly when [ef_length > ls_length], and in both
    cases goes on to the constructors of torch, whose outcome is its own. *)
Lemma init_after_check now get_act conv1d convT1d adamW
    features L extracted latent k s p act_name act
    lr lr_decay betas tag log out ef ls :
  get_act act_name = Ret act →
  AE.shape_lengths L k s p = Ret (ef, ls) →
  AE.__init__ now get_act conv1d convT1d adamW features L extracted latent
    k s p act_name lr lr_decay betas tag log out
  = ((let? conv_1 := conv1d features extracted k s p in
      let? conv_2 := conv1d extracted latent k s p in
      let? deconv_1 := convT1d latent extracted k s p in
      let? deconv_2 := convT1d extracted features k s p in
      let? _ := adamW [conv_1; nn.ReLU; conv_2; nn.ReLU]
                  [deconv_1; nn.ReLU; deconv_2; act] lr betas in
      Ret {| AE._writer :=
               if log then Some ("runs/" +:+ tag +:+ "/AE/" +:+ now) else None;
             AE._features := features;
             AE._extracted_features := extracted;
             AE._sequence_length := L;
             AE._kernel_size := k;
             AE._stride := s;
             AE._padding := p;
             AE._latent_space := latent;
             AE._encoder := [conv_1; nn.ReLU; conv_2; nn.ReLU];
             AE._decoder := [deconv_1; nn.ReLU; deconv_2; act];
             AE._optim :=
               {| AE.lr := lr; AE.betas := betas; AE.gamma := lr_decay |} |}),
     if gt ef ls then out ++ [AE.Warning_smaller_than_latent ef ls] else out).
Proof.
  intros Hact [Hef Hls]%shape_lengths_inv.
  unfold AE.__init__, bind, lift. rewrite Hact, Hef, Hls.
  destruct (gt ef ls); simpl;
    destruct (conv1d features extracted k s p) as [c1|]; simpl; try done;
    destruct (conv1d extracted latent k s p) as [c2|]; simpl; try done;
    destruct (convT1d latent extracted k s p) as [d1|]; simpl; try done;
    destruct (convT1d extracted features k s p) as [d2|]; simpl; try done;
    by destruct (adamW _ _ lr betas) as [[]|].
Qed.

(** What the constructor has printed when the lengths were computed,
    whether it returns or a constructor of torch raises afterwards. *)
Lemma init_printed now get_act conv1d convT1d adamW
    features L extracted latent k s p act_name act
    lr lr_decay betas tag log out ef ls :
  get_act act_name = Ret act →
  AE.shape_lengths L k s p = Ret (ef, ls) →
  (AE.__init__ now get_act conv1d convT1d adamW features L extracted latent
     k s p act_name lr lr_decay betas tag log out).2
  = if gt ef ls then out ++ [AE.Warning_smaller_than_latent ef ls] else out.
Proof.
  intros Hact Hlengths.
  by rewrite (init_after_check _ _ _ _ _ _ _ _ _ _ _ _ _ act _ _ _ _ _ _ ef ls).
Qed.

(** A stride of zero stops the constructor in the first division. *)
Lemma shape_lengths_zero_stride L k p :
  AE.shape_lengths L k 0 p = Raise ZeroDivisionError.
Proof. reflexivity. Qed.

(** [x <= y] excludes [y < x]. *)
Lemma SFleb_not_SFltb x y : SFleb x y = true → SFltb y x = false.
Proof.
  unfold SFleb, SFltb.
  destruct x as [sx|sx| |sx mx ex], y as [sy|sy| |sy my ey]; simpl;
    try done; try (by destruct sx); try (by destruct sy);
    try (by destruct sx, sy).
  pose proof (Pos.compare_cont_antisym mx my Eq) as Hanti. simpl in Hanti.
  destruct sx, sy; try done;
    rewrite (Z.compare_antisym ex ey), <- Hanti;
    destruct (ex ?= ey)%Z; simpl; try done;
    by destruct (Pos.compare_cont Eq mx my).
Qed.
End ShapeCheckFacts.




(** The formula with the floor gives 3 and then 0 on that input. *)
Lemma floor_formula_on_example :
  AE.conv_output_length_floor 10 5 2 0 = 3%Z
  ∧ AE.conv_output_length_floor 3 5 2 0 = 0%Z.
Proof. split; reflexivity. Qed.

(** C7: whenever the constructor has computed the two lengths, it has
    printed the warning, once, exactly when [ef_length > ls_length], and
    nothing when [ef_length <= ls_length]; in both cases it goes on to build
    the encoder, the decoder and the optimizer.  It returns the instance
    whenever torch's constructors return for the parameters, and an
    exception it raises is one that a constructor of torch raised: the
    shape check raises nothing. *)
Theorem shape_check_warns_and_proceeds
    (now : string) (get_act : string → outcome nn.Layer)
    (conv1d convT1d : Z → Z → Z → Z → Z → outcome nn.Layer)
    (adamW : nn.Sequential → nn.Sequential → PyFloat.float →
             PyFloat.float * PyFloat.float → outcome unit)
    (features L extracted latent k s p : Z) (act_name : string) (act : nn.Layer)
    (lr lr_decay : PyFloat.float) (betas : PyFloat.float * PyFloat.float)
    (tag : string) (log : bool) (out : list AE.printed)
    (ef ls : PyFloat.float) :
  get_act act_name = Ret act →
  AE.shape_lengths L k s p = Ret (ef, ls) →
  ∃ result printed,
    AE.__init__ now get_act conv1d convT1d adamW features L extracted latent
      k s p act_name lr lr_decay betas tag log out = (result, printed)
    ∧ (PyFloat.gt ef ls = true →
       printed = out ++ [AE.Warning_smaller_than_latent ef ls])
    ∧ (SFleb ef ls = true → printed = out)
    ∧ (PyFloat.gt ef ls = false → printed = out)
    ∧ (∀ conv_1 conv_2 deconv_1 deconv_2,
         conv1d features extracted k s p = Ret conv_1 →
         conv1d extracted latent k s p = Ret conv_2 →
         convT1d latent extracted k s p = Ret deconv_1 →
         convT1d extracted features k s p = Ret deconv_2 →
         adamW [conv_1; nn.ReLU; conv_2; nn.ReLU]
           [deconv_1; nn.ReLU; deconv_2; act] lr betas = Ret () →
         ∃ self,
           result = Ret self
           ∧ AE._encoder self = [conv_1; nn.ReLU; conv_2; nn.ReLU]
           ∧ AE._decoder self = [deconv_1; nn.ReLU; deconv_2; act])
    ∧ (∀ e,
         result = Raise e →
         conv1d features extracted k s p = Raise e
         ∨ conv1d extracted latent k s p = Raise e
         ∨ convT1d latent extracted k s p = Raise e
         ∨ convT1d extracted features k s p = Raise e
         ∨ ∃ conv_1 conv_2 deconv_1 deconv_2,
             conv1d features extracted k s p = Ret conv_1
             ∧ conv1d extracted latent k s p = Ret conv_2
             ∧ convT1d latent extracted k s p = Ret deconv_1
             ∧ convT1d extracted features k s p = Ret deconv_2
             ∧ adamW [conv_1; nn.ReLU; conv_2; nn.ReLU]
                 [deconv_1; nn.ReLU; deconv_2; act] lr betas = Raise e).
Proof.
  intros Hact Hlengths.
  eexists _, _. split; [by apply init_after_check|].
  split_and!.
  - by intros ->.
  - intros Hle. apply SFleb_not_SFltb in Hle.
    unfold PyFloat.gt. by rewrite Hle.
  - by intros ->.
  - intros c1 c2 d1 d2 -> -> -> ->. simpl. intros ->. simpl.
    by eexists.
  - intros e.
    destruct (conv1d features extracted k s p) as [c1|e1]; simpl;
      [|intros [= <-]; by left].
    destruct (conv1d extracted latent k s p) as [c2|e2]; simpl;
      [|intros [= <-]; right; by left].
    destruct (convT1d latent extracted k s p) as [d1|e3]; simpl;
      [|intros [= <-]; right; right; by left].
    destruct (convT1d extracted features k s p) as [d2|e4]; simpl;
      [|intros [= <-]; right; right; right; by left].
    destruct (adamW _ _ lr betas) as [[]|e5] eqn:Hopt; simpl; [done|].
    intros [= <-]. right; right; right; right. by exists c1, c2, d1, d2.
Qed.

Lemma shape_check_warns_and_proceeds_witness :
  (∃ self printed,
     example_init 10 5 2 0 = (Ret self, printed)
     ∧ printed = [AE.Warning_smaller_than_latent
                    (PyFloat.dyadic 7 (-1)) (PyFloat.dyadic 1 (-2))]
     ∧ AE._encoder self =
         [ nn.new_Conv1d 1 4 5 2 0; nn.ReLU; nn.new_Conv1d 4 2 5 2 0; nn.ReLU ])
  ∧ (∃ self printed,
       example_init 10 3 1 1 = (Ret self, printed) ∧ printed = []).
Proof.
  assert (Hact : example_activations "relu" = Ret nn.ReLU)
    by (vm_compute; reflexivity).
  assert (Hless : AE.shape_lengths 10 5 2 0
                  = Ret (PyFloat.dyadic 7 (-1), PyFloat.dyadic 1 (-2)))
    by (vm_compute; reflexivity).
  assert (Hsame : AE.shape_lengths 10 3 1 1
                  = Ret (PyFloat.dyadic 10 0, PyFloat.dyadic 10 0))
    by (vm_compute; reflexivity).
  split.
  - destruct (shape_check_warns_and_proceeds "01012024_120000"
                example_activations example_Conv1d example_ConvTranspose1d
                example_AdamW 1 10 4 2 5 2 0 "relu" nn.ReLU
                (PyFloat.dyadic 1 (-10)) (PyFloat.dyadic 7 (-3))
                (PyFloat.dyadic 7 (-3), PyFloat.dyadic 15 (-4)) "" false []
                (PyFloat.dyadic 7 (-1)) (PyFloat.dyadic 1 (-2))
                Hact Hless)
      as (result & printed & Hrun & Hwarn & _ & _ & Hbuilt & _).
    destruct (Hbuilt (nn.new_Conv1d 1 4 5 2 0) (nn.new_Conv1d 4 2 5 2 0)
                (nn.new_ConvTranspose1d 2 4 5 2 0)
                (nn.new_ConvTranspose1d 4 1 5 2 0))
      as (self & -> & Henc & _); [vm_compute; reflexivity..|].
    exists self, printed.
    split_and!; [exact Hrun|apply Hwarn; vm_compute; reflexivity|exact Henc].
  - destruct (shape_check_warns_and_proceeds "01012024_120000"
                example_activations example_Conv1d example_ConvTranspose1d
                example_AdamW 1 10 4 2 3 1 1 "relu" nn.ReLU
                (PyFloat.dyadic 1 (-10)) (PyFloat.dyadic 7 (-3))
                (PyFloat.dyadic 7 (-3), PyFloat.dyadic 15 (-4)) "" false []
                (PyFloat.dyadic 10 0) (PyFloat.dyadic 10 0)
                Hact Hsame)
      as (result & printed & Hrun & _ & Hquiet & _ & Hbuilt & _).
    destruct (Hbuilt (nn.new_Conv1d 1 4 3 1 1) (nn.new_Conv1d 4 2 3 1 1)
                (nn.new_ConvTranspose1d 2 4 3 1 1)
                (nn.new_ConvTranspose1d 4 1 3 1 1))
      as (self & -> & _); [vm_compute; reflexivity..|].
    exists self, printed.
    split; [exact Hrun|apply Hquiet; vm_compute; reflexivity].
Defined.

(** ** Freezing *)

Section FreezeFacts.
Implicit Types (b : bool) (p : nn.Param) (ps : list nn.Param)
  (m : nn.Layer) (s : nn.Sequential).

Lemma set_requires_grad_twice b p :
  nn.set_requires_grad b (nn.set_requires_grad b p) = nn.set_requires_grad b p.
Proof. done. Qed.

Lemma parameters_set_module_grad b m :
  nn.parameters (nn.set_module_grad b m) = nn.set_requires_grad b <$> nn.parameters m.
Proof. by destruct m. Qed.

Lemma seq_parameters_set_seq_grad b s :
  nn.seq_parameters (nn.set_seq_grad b s)
  = nn.set_requires_grad b <$> nn.seq_parameters s.
Proof.
  unfold nn.seq_parameters, nn.set_seq_grad.
  induction s as [|m s IH]; [done|].
  rewrite fmap_cons, !bind_cons, fmap_app, IH.
  by rewrite parameters_set_module_grad.
Qed.

Lemma set_module_grad_twice b m :
  nn.set_module_grad b (nn.set_module_grad b m) = nn.set_module_grad b m.
Proof.
  destruct m; simpl; try done.
  f_equal. rewrite <- list_fmap_compose. by apply list_fmap_ext.
Qed.

Lemma set_seq_grad_twice b s :
  nn.set_seq_grad b (nn.set_seq_grad b s) = nn.set_seq_grad b s.
Proof.
  unfold nn.set_seq_grad. rewrite <- list_fmap_compose.
  apply list_fmap_ext. intros _ m _. apply set_module_grad_twice.
Qed.

Lemma all_set b ps :
  Forall (λ p, nn.requires_grad p = b) (nn.set_requires_grad b <$> ps).
Proof. apply Forall_fmap, Forall_true. done. Qed.

Lemma trainable_none ps :
  nn.trainable (nn.set_requires_grad false <$> ps) = [].
Proof.
  unfold nn.trainable. induction ps as [|p ps IH]; [done|].
  rewrite fmap_cons, filter_cons_False; [done|]. simpl. done.
Qed.

Lemma trainable_all ps :
  nn.trainable (nn.set_requires_grad true <$> ps) = nn.set_requires_grad true <$> ps.
Proof.
  unfold nn.trainable. induction ps as [|p ps IH]; [done|].
  rewrite fmap_cons, filter_cons_True by done. by rewrite IH.
Qed.

Lemma AE_codec_parameters_freeze (self : AE.t) (unfreeze : bool) :
  AE.codec_parameters (AE.freeze self unfreeze)
  = nn.set_requires_grad (negb unfreeze) <$> AE.codec_parameters self.
Proof.
  unfold AE.codec_parameters, AE.freeze. simpl.
  by rewrite !seq_parameters_set_seq_grad, fmap_app.
Qed.

Lemma AE_freeze_twice (self : AE.t) (unfreeze : bool) :
  AE.freeze (AE.freeze self unfreeze) unfreeze = AE.freeze self unfreeze.
Proof.
  unfold AE.freeze. simpl. by rewrite !set_seq_grad_twice.
Qed.

Lemma ConvVAE_projection_parameters_freeze (self : ConvVAE.t) (unfreeze : bool) :
  ConvVAE.projection_parameters (ConvVAE.freeze self unfreeze)
  = nn.set_requires_grad (negb unfreeze) <$> ConvVAE.projection_parameters self.
Proof.
  unfold ConvVAE.projection_parameters, ConvVAE.freeze. simpl.
  by rewrite !parameters_set_module_grad, !fmap_app.
Qed.

Lemma ConvVAE_freeze_twice (self : ConvVAE.t) (unfreeze : bool) :
  ConvVAE.freeze (ConvVAE.freeze self unfreeze) unfreeze
  = ConvVAE.freeze self unfreeze.
Proof.
  unfold ConvVAE.freeze, ConvAE.freeze. simpl.
  by rewrite !set_module_grad_twice, set_seq_grad_twice.
Qed.

(** What the two [freeze] methods of the sources do: every parameter they
    reach gets [requires_grad = not unfreeze]. *)
Lemma freeze_flag (ae : AE.t) (vae : ConvVAE.t) (unfreeze : bool) :
  Forall (λ p, nn.requires_grad p = negb unfreeze)
    (AE.codec_parameters (AE.freeze ae unfreeze))
  ∧ Forall (λ p, nn.requires_grad p = negb unfreeze)
      (ConvVAE.projection_parameters (ConvVAE.freeze vae unfreeze)).
Proof.
  split.
  - rewrite AE_codec_parameters_freeze. apply all_set.
  - rewrite ConvVAE_projection_parameters_freeze. apply all_set.
Qed.
End FreezeFacts.

(** C8 at [freeze()] on a freshly built auto-encoder, and on the projection
    layers of a VAE: with [unfreeze = False] all eight parameters of the
    encoder and the decoder, and all four of the projection layers, are
    still trainable afterwards; it is [unfreeze = True] that leaves none
    trainable.  The flag that is written is [not unfreeze]. *)
Theorem freeze_leaves_parameters_trainable :
  (∃ self,
     example_init 10 3 1 1 = (Ret self, [])
     ∧ length (AE.codec_parameters self) = 8
     ∧ nn.trainable (AE.codec_parameters (AE.freeze self false))
       = AE.codec_parameters self
     ∧ nn.trainable (AE.codec_parameters (AE.freeze self true)) = [])
  ∧ length (ConvVAE.projection_parameters example_vae) = 4
  ∧ nn.trainable (ConvVAE.projection_parameters (ConvVAE.freeze example_vae false))
    = ConvVAE.projection_parameters example_vae
  ∧ nn.trainable (ConvVAE.projection_parameters (ConvVAE.freeze example_vae true))
    = [].
Proof.
  split_and!; [|vm_compute; reflexivity..].
  eexists. split; [vm_compute; reflexivity|].
  split_and!; vm_compute; reflexivity.
Qed.

(** ** The variational auto-encoder *)

Section VAEFacts.
Import torch.
Variables prec emax : Z.
Variable broadcast : (float → float → float) → tensor → tensor → outcome tensor.
Variable exp_elem : float → float.
Variable generator : Type.
Variable normal : generator → float * generator.
Variable module_forward : nn.Layer → tensor → outcome tensor.
Variable swapaxes : tensor → nat → nat → outcome tensor.
Variable relu : tensor → tensor.

Lemma normals_length n g :
  ∃ xs g', normals generator normal n g = (Ret xs, g') ∧ length xs = n.
Proof.
  revert g. induction n as [|n IH]; intros g; simpl.
  - by eexists _, _.
  - unfold bind at 1. destruct (IH (normal g).2) as (xs & g' & Hxs & Hlen).
    unfold bind. rewrite Hxs. eexists _, _. split; [done|]. simpl. by rewrite Hlen.
Qed.

Lemma normals_finite n g xs g' :
  (∀ g, is_finite (normal g).1 = true) →
  normals generator normal n g = (Ret xs, g') →
  Forall (λ x, is_finite x = true) xs.
Proof.
  intros Hfin. revert g xs g'. induction n as [|n IH]; intros g xs g'; simpl.
  - by intros [= <- _].
  - unfold bind at 1. unfold bind.
    destruct (normals generator normal n (normal g).2) as [[ys|e] g''] eqn:Hys;
      [|done].
    unfold ret. intros [= <- _]. constructor; [apply Hfin|by eapply IH].
Qed.

(** [randn_like] draws a tensor of the shape and size of its argument. *)
Lemma randn_like_shape a g :
  ∃ noise g',
    randn_like generator normal a g = (Ret noise, g')
    ∧ shape noise = shape a
    ∧ length (data noise) = length (data a)
    ∧ normals generator normal (length (data a)) g = (Ret (data noise), g').
Proof.
  unfold randn_like, bind.
  destruct (normals_length (length (data a)) g) as (xs & g' & Hxs & Hlen).
  rewrite Hxs. by eexists _, _.
Qed.

Lemma view_inv x sh t :
  view x sh = Ret t → shape t = sh ∧ data t = data x.
Proof. unfold view. case_decide; [|done]. by intros [= <-]. Qed.

(** The two results of [_encode] are views of one shape. *)
Lemma encode_same_shape self x mean log_var :
  ConvVAE._encode module_forward swapaxes relu self x = Ret (mean, log_var) →
  shape mean = shape log_var.
Proof.
  unfold ConvVAE._encode, obind.
  destruct (swapaxes x 1 3) as [x1|]; [|done].
  destruct (swapaxes x1 2 1) as [x2|]; [|done].
  destruct (module_forward _ x2) as [x3|]; [|done].
  destruct (module_forward _ (relu x3)) as [x4|]; [|done].
  destruct (shape (relu x4)) as [|b [|c [|f [|sa [|]]]]]; try done.
  destruct (view (relu x4) _) as [flat|]; [|done].
  destruct (module_forward _ flat) as [pm|]; [|done].
  destruct (view pm _) as [m|] eqn:Hm; [|done].
  destruct (module_forward _ flat) as [pv|]; [|done].
  destruct (view pv _) as [v|] eqn:Hv; [|done].
  intros [= <- <-].
  apply view_inv in Hm as [-> _]. by apply view_inv in Hv as [-> _].
Qed.

(** On operands of one shape the sampling is computed element by
    element. *)
Lemma reparameterization_pointwise self mean std g noise g' :
  shape std = shape mean →
  randn_like generator normal std g = (Ret noise, g') →
  ConvVAE.reparameterization prec emax broadcast generator normal self mean std g
  = (Ret {| shape := shape mean;
            data := zip_with (SFadd prec emax) (data mean)
                      (zip_with (SFmul prec emax) (data std) (data noise)) |},
     g').
Proof.
  intros Hshape Hnoise.
  destruct (randn_like_shape std g) as (noise' & g'' & Hrun & Hsh & _ & _).
  rewrite Hnoise in Hrun. injection Hrun as <- <-.
  unfold ConvVAE.reparameterization, bind at 1. rewrite Hnoise.
  unfold bind, lift, ret, obind, mul, add, pointwise. simpl.
  rewrite decide_True by done. simpl.
  by rewrite decide_True by done.
Qed.

(** Multiplying a zero by a finite draw gives a zero, and adding a zero
    to a number gives the number back, up to the sign of a zero. *)
Lemma mul_zero_finite z n :
  PyFloat.is_zero z = true → is_finite n = true →
  PyFloat.is_zero (SFmul prec emax z n) = true.
Proof. by destruct z, n. Qed.

Lemma add_zero_same m z :
  PyFloat.is_zero z = true →
  ConvVAE.same_number (SFadd prec emax m z) m.
Proof.
  unfold ConvVAE.same_number.
  destruct z as [sz| | |]; try done. intros _.
  destruct m as [sm|sm| |sm mm em]; simpl; auto.
  destruct sm, sz; auto.
Qed.

Lemma add_zero_exact m z :
  PyFloat.is_zero z = true → m ≠ S754_zero true →
  SFadd prec emax m z = m.
Proof.
  destruct z as [sz| | |]; try done. intros _ Hm.
  destruct m as [sm|sm| |sm mm em]; simpl; auto.
  destruct sm, sz; done.
Qed.

Lemma zero_std_data ms ss ns :
  length ss = length ms → length ns = length ss →
  Forall (λ x, PyFloat.is_zero x = true) ss →
  Forall (λ x, is_finite x = true) ns →
  Forall2 ConvVAE.same_number
    (zip_with (SFadd prec emax) ms (zip_with (SFmul prec emax) ss ns)) ms
  ∧ (Forall (λ x, x ≠ S754_zero true) ms →
     zip_with (SFadd prec emax) ms (zip_with (SFmul prec emax) ss ns) = ms).
Proof.
  revert ss ns. induction ms as [|m ms IH]; intros [|z ss] [|n ns]; simpl;
    try done.
  intros [= Hlen1] [= Hlen2] [Hz Hss]%Forall_cons [Hn Hns]%Forall_cons.
  destruct (IH ss ns Hlen1 Hlen2 Hss Hns) as [IH1 IH2].
  pose proof (mul_zero_finite z n Hz Hn) as Hzero.
  split.
  - constructor; [by apply add_zero_same|done].
  - intros [Hm Hms]%Forall_cons. f_equal; [by apply add_zero_exact|by apply IH2].
Qed.

Lemma SFeqb_same x : is_nan x = false → SFeqb x x = true.
Proof.
  unfold SFeqb. destruct x as [s|s| |s m e]; simpl; try done.
  - by destruct s.
  - rewrite Z.compare_refl, Pos.compare_cont_refl. by destruct s.
Qed.

Lemma same_number_eq x y :
  ConvVAE.same_number x y → is_nan y = false → PyFloat.eq x y = true.
Proof.
  intros [->|[Hx Hy]] Hnan.
  - by apply SFeqb_same.
  - by destruct x, y.
Qed.

Lemma same_number_equal xs ys :
  Forall2 ConvVAE.same_number xs ys →
  Forall (λ y, is_nan y = false) ys →
  Forall2 (λ x y, PyFloat.eq x y = true) xs ys.
Proof.
  induction 1 as [|x y xs ys Hxy Hrest IH]; [constructor|].
  intros [Hy Hys]%Forall_cons.
  constructor; [by apply same_number_eq|by apply IH].
Qed.
End VAEFacts.

(** C4: when [_encode(x)] gives [(mean, log_var)], [forward(x)] draws one
    noise tensor of the shape of [std = exp(0.5 * log_var)] and returns
    [decode(z)], and only that, for [z = mean + std * noise] computed element
    by element; the generator has advanced by that one draw. *)
Theorem forward_decodes_sample
    (prec emax : Z)
    (broadcast : (torch.float → torch.float → torch.float) →
                 torch.tensor → torch.tensor → outcome torch.tensor)
    (exp_elem : torch.float → torch.float)
    (generator : Type) (normal : generator → torch.float * generator)
    (module_forward : nn.Layer → torch.tensor → outcome torch.tensor)
    (swapaxes : torch.tensor → nat → nat → outcome torch.tensor)
    (relu : torch.tensor → torch.tensor)
    (self : ConvVAE.t) (x mean log_var : torch.tensor) (g : generator) :
  ConvVAE._encode module_forward swapaxes relu self x = Ret (mean, log_var) →
  let std :=
    torch.exp exp_elem (torch.scale prec emax (ConvVAE.half prec emax) log_var) in
  ∃ noise g',
    torch.randn_like generator normal std g = (Ret noise, g')
    ∧ torch.shape noise = torch.shape std
    ∧ length (torch.data noise) = length (torch.data std)
    ∧ torch.data std
      = (λ v, exp_elem (SFmul prec emax (ConvVAE.half prec emax) v))
        <$> torch.data log_var
    ∧ ConvVAE.forward prec emax broadcast exp_elem generator normal
        module_forward swapaxes relu self x g
      = (ConvAE.decode module_forward (ConvVAE.base self)
           {| torch.shape := torch.shape mean;
              torch.data :=
                zip_with (SFadd prec emax) (torch.data mean)
                  (zip_with (SFmul prec emax) (torch.data std)
                     (torch.data noise)) |},
         g').
Proof.
  intros Hencode std.
  destruct (randn_like_shape generator normal std g)
    as (noise & g' & Hnoise & Hshape & Hlen & _).
  exists noise, g'. split_and!; try done.
  - unfold std, torch.exp, torch.scale. simpl.
    by rewrite <- list_fmap_compose.
  - assert (Hsame : torch.shape std = torch.shape mean).
    { unfold std. simpl. symmetry. by eapply encode_same_shape. }
    unfold ConvVAE.forward, bind at 1, lift at 1. rewrite Hencode. simpl.
    unfold bind at 1. fold std.
    by rewrite (reparameterization_pointwise prec emax broadcast generator
                  normal self mean std g noise g' Hsame Hnoise).
Qed.

Lemma forward_decodes_sample_witness :
  ConvVAE.forward PyFloat.prec PyFloat.emax example_broadcast example_exp nat
    example_normal example_module_forward example_swapaxes example_relu
    example_vae example_input 0
  = (Ret {| torch.shape := [1; 1; 1; 2];
            torch.data := [PyFloat.dyadic 7 (-2); PyFloat.dyadic 3 (-4)] |},
     2).
Proof.
  destruct (forward_decodes_sample PyFloat.prec PyFloat.emax example_broadcast
              example_exp nat example_normal example_module_forward
              example_swapaxes example_relu example_vae example_input
              {| torch.shape := [1; 1; 1; 2]; torch.data := torch.data example_input |}
              {| torch.shape := [1; 1; 1; 2]; torch.data := torch.data example_input |}
              0 eq_refl)
    as (noise & g' & Hnoise & _ & _ & _ & Hforward).
  injection Hnoise as <- <-. exact Hforward.
Defined.

(** C5: with a standard deviation of zeros of the shape of [mean], and
    whatever finite noise the generator yields, [reparameterization]
    returns [mean]: the same shape, and element by element the same number.
    The result is identical to [mean] when [mean] holds no negative zero (a
    [-0.0] may come back as [0.0]), and [torch.equal] holds when [mean] holds
    no NaN. *)
Theorem reparameterization_zero_std
    (prec emax : Z)
    (broadcast : (torch.float → torch.float → torch.float) →
                 torch.tensor → torch.tensor → outcome torch.tensor)
    (generator : Type) (normal : generator → torch.float * generator)
    (self : ConvVAE.t) (mean std : torch.tensor) (g : generator) :
  (∀ g, torch.is_finite (normal g).1 = true) →
  torch.shape std = torch.shape mean →
  length (torch.data std) = length (torch.data mean) →
  torch.all_zeros std →
  ∃ z g',
    ConvVAE.reparameterization prec emax broadcast generator normal
      self mean std g = (Ret z, g')
    ∧ torch.shape z = torch.shape mean
    ∧ Forall2 ConvVAE.same_number (torch.data z) (torch.data mean)
    ∧ (Forall (λ x, x ≠ S754_zero true) (torch.data mean) → z = mean)
    ∧ (Forall (λ x, torch.is_nan x = false) (torch.data mean) →
       torch.equal z mean = true).
Proof.
  intros Hfinite Hshape Hlen Hzeros.
  destruct (randn_like_shape generator normal std g)
    as (noise & g' & Hnoise & _ & Hnlen & Hdraws).
  pose proof (normals_finite generator normal _ _ _ _ Hfinite Hdraws) as Hfin.
  destruct (zero_std_data prec emax (torch.data mean) (torch.data std)
              (torch.data noise) Hlen Hnlen Hzeros Hfin) as [Hsame Hexact].
  eexists _, g'. split.
  { by apply reparameterization_pointwise. }
  simpl. split_and!; [done|done| |].
  - intros Hno_neg_zero. rewrite (Hexact Hno_neg_zero). by destruct mean.
  - intros Hno_nan. unfold torch.equal. simpl.
    rewrite bool_decide_eq_true_2 by done. simpl.
    apply bool_decide_eq_true_2. by apply same_number_equal.
Qed.

Lemma reparameterization_zero_std_witness :
  ∃ z g',
    ConvVAE.reparameterization PyFloat.prec PyFloat.emax example_broadcast nat
      example_normal example_vae example_mean example_zero_std 0 = (Ret z, g')
    ∧ torch.shape z = torch.shape example_mean
    ∧ Forall2 ConvVAE.same_number (torch.data z) (torch.data example_mean)
    ∧ torch.equal z example_mean = true.
Proof.
  destruct (reparameterization_zero_std PyFloat.prec PyFloat.emax
              example_broadcast nat example_normal example_vae
              example_mean example_zero_std 0)
    as (z & g' & Hrun & Hshape & Hsame & _ & Hequal).
  - intros g. unfold example_normal. simpl. by destruct (Nat.even g).
  - reflexivity.
  - reflexivity.
  - repeat constructor.
  - exists z, g'. split_and!; [exact Hrun|exact Hshape|exact Hsame|].
    apply Hequal. repeat constructor.
Defined.

(** On [example_mean], whose first element is [-0.0], the first draw is
    [0.5] and the sample starts with [0.0]: the same number, another sign
    bit. *)
Lemma reparameterization_negative_zero :
  ConvVAE.reparameterization PyFloat.prec PyFloat.emax example_broadcast nat
    example_normal example_vae example_mean example_zero_std 0
  = (Ret {| torch.shape := [1; 1; 1; 2];
            torch.data := [S754_zero false; PyFloat.dyadic 3 (-1)] |}, 2).
Proof. reflexivity. Qed.

(** * Further properties of the model register *)

Lemma get_model_Ret_inv {Model : Type} `{PyBool Model}
    (self : Config.t Model) (name : string) (C : Model) :
  Config.get_model self name = Ret C →
  Config.model_register self !! name = Some C ∧ py_bool C = true.
Proof.
  unfold Config.get_model.
  destruct (Config.model_register self !! name) as [C'|]; [|done].
  destruct (py_bool C') eqn:HC'; simpl; [|done]. by intros [= <-].
Qed.

(** An object that is false in a boolean context can be registered, and
    the register holds it, but [get_model] raises for its name as for a
    name that was never registered. *)
Theorem get_model_rejects_falsy {Model : Type} `{PyBool Model}
    (self : Config.t Model) (name : string) (C : Model) :
  py_bool C = false →
  Config.model_register (Config.register_model self name C) !! name = Some C
  ∧ Config.get_model (Config.register_model self name C) name
    = Raise (RuntimeError ("Model of type " +:+ name +:+ " is not registered.")).
Proof.
  intros HC. unfold Config.get_model, Config.register_model. simpl.
  rewrite lookup_insert_eq. by rewrite HC.
Qed.

Lemma get_model_rejects_falsy_witness :
  Config.model_register
    (Config.register_model (Config.init (Model := option model_class)) "AE" None)
    !! "AE" = Some None
  ∧ Config.get_model
      (Config.register_model (Config.init (Model := option model_class)) "AE" None)
      "AE"
    = Raise (RuntimeError "Model of type AE is not registered.").
Proof.
  apply (get_model_rejects_falsy (Config.init (Model := option model_class))
           "AE" None).
  reflexivity.
Defined.

(** Registering under one name leaves the lookup of every other name as it
    was, whether it returned a model or raised. *)
Theorem register_model_keeps_other_names {Model : Type} `{PyBool Model}
    (self : Config.t Model) (name other : string) (C : Model) :
  name ≠ other →
  Config.get_model (Config.register_model self name C) other
  = Config.get_model self other.
Proof.
  intros Hne. unfold Config.get_model, Config.register_model. simpl.
  by rewrite lookup_insert_ne.
Qed.

Lemma register_model_keeps_other_names_witness :
  Config.get_model
    (Config.register_model config_after_imports "ConvLSTM" ConvVAE_class)
    "SimpleModel"
  = Config.get_model config_after_imports "SimpleModel".
Proof.
  apply (register_model_keeps_other_names config_after_imports
           "ConvLSTM" "SimpleModel" ConvVAE_class).
  discriminate.
Defined.

(** Registrations under two different names can be made in either order:
    the register is the same. *)
Theorem register_model_commutes {Model : Type} `{PyBool Model}
    (self : Config.t Model) (name1 name2 : string) (C1 C2 : Model) :
  name1 ≠ name2 →
  Config.register_model (Config.register_model self name1 C1) name2 C2
  = Config.register_model (Config.register_model self name2 C2) name1 C1.
Proof.
  intros Hne. unfold Config.register_model. simpl.
  f_equal. by apply insert_insert_ne.
Qed.

Lemma register_model_commutes_witness :
  Config.registrations [("SimpleModel", AE_class); ("ConvVAE", ConvVAE_class)]
  = Config.registrations [("ConvVAE", ConvVAE_class); ("SimpleModel", AE_class)].
Proof.
  apply (register_model_commutes Config.init "SimpleModel" "ConvVAE"
           AE_class ConvVAE_class).
  discriminate.
Defined.

(** In any run of registrations, the last one made under a name decides
    what [get_model] returns for it, whatever was registered before it and
    whatever is registered under other names after it. *)
Theorem last_registration_wins {Model : Type} `{PyBool Model}
    (before after : list (string * Model)) (name : string) (C : Model) :
  name ∉ after.*1 →
  py_bool C = true →
  Config.get_model (Config.registrations (before ++ (name, C) :: after)) name
  = Ret C.
Proof.
  intros Hafter HC.
  induction after as [|[n C'] after IH] using rev_ind.
  - rewrite registrations_snoc. by apply get_model_registered.
  - rewrite fmap_app in Hafter. simpl in Hafter.
    apply not_elem_of_app in Hafter as [Hafter Hn].
    rewrite app_comm_cons, app_assoc, registrations_snoc.
    rewrite register_model_other; [by apply IH|].
    intros ->. apply Hn. by apply list_elem_of_singleton.
Qed.

Lemma last_registration_wins_witness :
  Config.get_model
    (Config.registrations
       [ ("SimpleModel", ConvVAE_class); ("SimpleModel", AE_class);
         ("ConvVAE", ConvVAE_class) ])
    "SimpleModel"
  = Ret AE_class.
Proof.
  apply (last_registration_wins [("SimpleModel", ConvVAE_class)]
           [("ConvVAE", ConvVAE_class)] "SimpleModel" AE_class).
  - simpl. intros Hin.
    repeat (apply elem_of_cons in Hin as [Hin|Hin]; [discriminate Hin|]).
    by apply elem_of_nil in Hin.
  - reflexivity.
Defined.

Lemma registrations_lookup_Some {Model : Type} `{PyBool Model}
    (calls : list (string * Model)) (name : string) (C : Model) :
  Config.model_register (Config.registrations calls) !! name = Some C →
  (name, C) ∈ calls.
Proof.
  induction calls as [|[n C'] calls IH] using rev_ind; [done|].
  rewrite registrations_snoc. simpl.
  destruct (decide (n = name)) as [->|Hne].
  - rewrite lookup_insert_eq. intros [= ->].
    apply elem_of_app. right. by apply list_elem_of_singleton.
  - rewrite lookup_insert_ne by done. intros Hin.
    apply elem_of_app. left. by apply IH.
Qed.

(** [get_model] never returns an object that no call registered under
    the name. *)
Theorem get_model_only_registered {Model : Type} `{PyBool Model}
    (calls : list (string * Model)) (name : string) (C : Model) :
  Config.get_model (Config.registrations calls) name = Ret C →
  (name, C) ∈ calls ∧ py_bool C = true.
Proof.
  intros Hget. apply get_model_Ret_inv in Hget as [Hlookup HC].
  split; [by apply registrations_lookup_Some|done].
Qed.

Lemma get_model_only_registered_witness :
  ("ConvVAE", ConvVAE_class)
    ∈ [("SimpleModel", AE_class); ("ConvVAE", ConvVAE_class)]
  ∧ py_bool ConvVAE_class = true.
Proof.
  apply (get_model_only_registered
           [("SimpleModel", AE_class); ("ConvVAE", ConvVAE_class)]
           "ConvVAE" ConvVAE_class).
  reflexivity.
Defined.

(** * Further properties of the precision resolution *)

Section ResolutionFacts.
Import Config.
Implicit Types (σ : store) (d l : loc) (k : string) (v doc : value)
  (items : gmap string value).

Lemma write_item_dom σ l k v : dom (write_item σ l k v) = dom σ.
Proof.
  unfold write_item. destruct (σ !! l) as [[items|xs]|] eqn:Hl; try done.
  by apply dom_insert_lookup_L.
Qed.

Lemma write_item_list σ l k v l' xs :
  write_item σ l k v !! l' = Some (OList xs) ↔ σ !! l' = Some (OList xs).
Proof.
  unfold write_item. destruct (σ !! l) as [[items|ys]|] eqn:Hl; try done.
  destruct (decide (l = l')) as [->|Hne].
  - rewrite lookup_insert_eq, Hl. split; intros; discriminate.
  - by rewrite lookup_insert_ne.
Qed.

(** Writing what is there already changes nothing. *)
Lemma write_item_same σ l k v items :
  σ !! l = Some (ODict items) → items !! k = Some v →
  write_item σ l k v = σ.
Proof.
  intros Hl Hk. unfold write_item. rewrite Hl.
  rewrite (insert_id items) by done. by apply insert_id.
Qed.

(** Of two writes under one key of one dict the second stays. *)
Lemma write_item_twice σ l k v w :
  write_item (write_item σ l k v) l k w = write_item σ l k w.
Proof.
  unfold write_item. destruct (σ !! l) as [[items|xs]|] eqn:Hl.
  - rewrite lookup_insert_eq, insert_insert_eq. by rewrite insert_insert_eq.
  - by rewrite Hl.
  - by rewrite Hl.
Qed.

Lemma write_item_mapping σ l k v x :
  is_mapping (write_item σ l k v) x ↔ is_mapping σ x.
Proof.
  unfold is_mapping, write_item.
  destruct (σ !! l) as [[items|xs]|] eqn:Hl; try done.
  split.
  - intros (l' & its & -> & Hl'). exists l'.
    destruct (decide (l = l')) as [->|Hne].
    + eauto.
    + rewrite lookup_insert_ne in Hl' by done. eauto.
  - intros (l' & its & -> & Hl'). exists l'.
    destruct (decide (l = l')) as [->|Hne].
    + rewrite lookup_insert_eq. eauto.
    + rewrite lookup_insert_ne by done. eauto.
Qed.

(** The store after [setitem], whatever its outcome. *)
Lemma setitem_store v k x σ :
  (setitem v k x σ).2
  = match v with VRef l => write_item σ l k x | _ => σ end.
Proof.
  unfold setitem, write_item. destruct v; try done.
  by destruct (σ !! l) as [[items|xs]|].
Qed.

Lemma setitem_Ret_inv v k x σ u σ' :
  setitem v k x σ = (Ret u, σ') →
  ∃ l, v = VRef l ∧ is_mapping σ (VRef l) ∧ σ' = write_item σ l k x.
Proof.
  unfold setitem, write_item, is_mapping. destruct v; try done.
  destruct (σ !! l) as [[items|xs]|] eqn:Hl; try done.
  intros Heq. injection Heq as _ <-. exists l.
  split_and!; [done|by eexists _, _|by rewrite Hl].
Qed.

(** The stores a run of [_set_precision] can end in: the one it started
    in, with the dtype written to one section, or to both. *)
Lemma set_precision_store doc σ :
  ∃ writes : list (loc * value),
    (_set_precision doc σ).2
    = foldl (λ σ w, write_item σ w.1 "precision" w.2) σ writes.
Proof.
  destruct doc as [| | | | |r| |];
    try (by rewrite set_precision_not_a_dict by done; exists []).
  destruct (σ !! r) as [[items|xs]|] eqn:Hr.
  2,3: by unfold _set_precision, bind, keys_contains; rewrite Hr; exists [].
  destruct (items !! "precision") as [key|] eqn:Hp.
  2:{ rewrite (set_precision_absent _ _ _ Hr Hp). by exists []. }
  rewrite (set_precision_present _ _ _ _ Hr Hp).
  destruct (precisions_get key) as [[[np th]|]|e]; try (by exists []).
  simpl. unfold bind at 1, getitem at 1. rewrite Hr.
  destruct (items !! "model") as [vm|]; [|by exists []].
  unfold bind at 1.
  pose proof (setitem_store vm "precision" (VTorch th) σ) as Hst1.
  destruct (setitem vm "precision" (VTorch th) σ) as [[u|e] σ1] eqn:Hset1.
  2:{ exists []. simpl in *. subst σ1.
      unfold setitem in Hset1. destruct vm; try done.
      unfold write_item. by destruct (σ !! l) as [[its|ys]|]. }
  clear Hst1. apply setitem_Ret_inv in Hset1 as (lm & -> & _ & ->).
  set (σ1 := write_item σ lm "precision" (VTorch th)).
  unfold bind at 1.
  assert ((getitem (VRef r) "dataset" σ1).2 = σ1) as Hget.
  { unfold getitem. destruct (σ1 !! r) as [[its|ys]|]; try done.
    by destruct (its !! "dataset"). }
  destruct (getitem (VRef r) "dataset" σ1) as [[vd|e] σ2]; simpl in Hget;
    subst σ2.
  2:{ by exists [(lm, VTorch th)]. }
  unfold bind at 1.
  pose proof (setitem_store vd "precision" (VNumpy np) σ1) as Hst.
  destruct (setitem vd "precision" (VNumpy np) σ1) as [[u'|e] σ3];
    simpl in Hst; subst σ3; simpl;
    (destruct vd; try (by exists [(lm, VTorch th)]);
     by exists [(lm, VTorch th); (l, VNumpy np)]).
Qed.

Lemma set_precision_value doc σ v :
  (_set_precision doc σ).1 = Ret v → v = doc.
Proof.
  unfold _set_precision, bind at 1, keys_contains.
  destruct doc as [| | | | |r| |]; try done.
  destruct (σ !! r) as [[items|xs]|] eqn:Hr; try done.
  destruct (bool_decide _); simpl; [|by intros [= <-]].
  unfold bind at 1. destruct (getitem _ _ _) as [[key|e] σ0]; [|done].
  unfold bind at 1, lift.
  destruct (precisions_get key) as [[p|]|e]; try done;
    [|by intros [= <-]].
  unfold bind at 1. destruct (getitem _ _ _) as [[vm|e] σ1]; [|done].
  unfold bind at 1. destruct (setitem _ _ _ _) as [[u|e] σ2]; [|done].
  unfold bind at 1. destruct (getitem _ _ _) as [[vd|e] σ3]; [|done].
  unfold bind at 1. destruct (setitem _ _ _ _) as [[u'|e] σ4]; [|done].
  by intros [= <-].
Qed.

(** A run that returns did one of three things. *)
Lemma set_precision_Ret_inv doc σ v σ' :
  _set_precision doc σ = (Ret v, σ') →
  ∃ r items,
    doc = VRef r ∧ v = VRef r ∧ σ !! r = Some (ODict items)
    ∧ ((items !! "precision" = None ∧ σ' = σ)
       ∨ (∃ key, items !! "precision" = Some key
                 ∧ precisions_get key = Ret None ∧ σ' = σ)
       ∨ (∃ name np th lm ld,
            items !! "precision" = Some (VStr name)
            ∧ _precisions !! name = Some (np, th)
            ∧ items !! "model" = Some (VRef lm)
            ∧ is_mapping σ (VRef lm)
            ∧ items !! "dataset" = Some (VRef ld)
            ∧ is_mapping σ (VRef ld)
            ∧ σ' = write_item (write_item σ lm "precision" (VTorch th))
                     ld "precision" (VNumpy np))).
Proof.
  intros Hrun.
  destruct doc as [| | | | |r| |];
    try (by rewrite set_precision_not_a_dict in Hrun).
  destruct (σ !! r) as [[items|xs]|] eqn:Hr.
  2,3: by unfold _set_precision, bind, keys_contains in Hrun; rewrite Hr in Hrun.
  exists r, items. split; [done|].
  destruct (items !! "precision") as [key|] eqn:Hp.
  2:{ rewrite (set_precision_absent _ _ _ Hr Hp) in Hrun.
      injection Hrun as <- <-. auto. }
  rewrite (set_precision_present _ _ _ _ Hr Hp) in Hrun.
  destruct (precisions_get key) as [[[np th]|]|e] eqn:Hkey; [| |done].
  2:{ injection Hrun as <- <-. split; [done|]. split; [done|].
      right; left. eauto. }
  destruct key as [| | | |name| | |]; try done.
  simpl in Hkey. injection Hkey as Hreg.
  simpl in Hrun. unfold bind at 1, getitem at 1 in Hrun. rewrite Hr in Hrun.
  destruct (items !! "model") as [vm|] eqn:Hm; [|done].
  unfold bind at 1 in Hrun.
  destruct (setitem vm "precision" (VTorch th) σ) as [[u|e] σ1] eqn:Hset1;
    [|done].
  apply setitem_Ret_inv in Hset1 as (lm & -> & Hmm & ->).
  destruct (write_item_dict σ lm "precision" (VTorch th) r items Hr)
    as (items' & Hr' & Hsame).
  unfold bind at 1, getitem at 1 in Hrun.
  rewrite Hr', (Hsame "dataset") in Hrun by done.
  destruct (items !! "dataset") as [vd|] eqn:Hds; [|done].
  unfold bind at 1 in Hrun.
  destruct (setitem vd "precision" (VNumpy np)
              (write_item σ lm "precision" (VTorch th))) as [[u'|e] σ3]
    eqn:Hset2; [|done].
  apply setitem_Ret_inv in Hset2 as (ld & -> & Hmd & ->).
  injection Hrun as <- <-. split; [done|]. split; [done|]. right; right.
  exists name, np, th, lm, ld. split_and!; try done.
  by apply write_item_mapping in Hmd.
Qed.
End ResolutionFacts.

(** Whatever the document and however the run ends, [_set_precision]
    creates and removes no object, leaves every list and every key other
    than ["precision"] of every mapping as it was, and what it returns is
    the object it was given. *)
Theorem set_precision_touches_only_precision
    (doc : Config.value) (σ : Config.store) :
  dom (Config._set_precision doc σ).2 = dom σ
  ∧ (∀ l k, k ≠ "precision" →
       Config.dict_item (Config._set_precision doc σ).2 l k
       = Config.dict_item σ l k)
  ∧ (∀ l xs, (Config._set_precision doc σ).2 !! l = Some (Config.OList xs)
             ↔ σ !! l = Some (Config.OList xs))
  ∧ (∀ v, (Config._set_precision doc σ).1 = Ret v → v = doc).
Proof.
  destruct (set_precision_store doc σ) as (writes & ->).
  split_and!; [| | |apply set_precision_value].
  - induction writes as [|[l v] writes IH] using rev_ind; [done|].
    rewrite foldl_app. simpl. by rewrite write_item_dom.
  - intros l k Hk.
    induction writes as [|[l' v] writes IH] using rev_ind; [done|].
    rewrite foldl_app. simpl.
    rewrite dict_item_write_ne by (intros [_ ?]; congruence). done.
  - intros l xs.
    induction writes as [|[l' v] writes IH] using rev_ind; [done|].
    rewrite foldl_app. simpl. by rewrite write_item_list.
Qed.

Lemma set_precision_touches_only_precision_witness :
  Config.dict_item (Config._set_precision (Config.VRef root) doc_float32).2
    section_a "lr"
  = Some (Config.VInt 1)
  ∧ (Config._set_precision (Config.VRef root) doc_no_dataset).1
    = Raise (KeyError "dataset")
  ∧ Config.dict_item (Config._set_precision (Config.VRef root) doc_no_dataset).2
      section_a "lr"
    = Some (Config.VInt 1).
Proof.
  destruct (set_precision_touches_only_precision (Config.VRef root) doc_float32)
    as (_ & Hkeys & _ & _).
  destruct (set_precision_touches_only_precision (Config.VRef root) doc_no_dataset)
    as (_ & Hkeys' & _ & _).
  split_and!.
  - rewrite Hkeys; [reflexivity|discriminate].
  - reflexivity.
  - rewrite Hkeys'; [reflexivity|discriminate].
Defined.

(** Resolving a second time changes nothing: when [_set_precision]
    returns, running it again on what it returned returns the same object
    and leaves the store as the first run left it. *)
Theorem set_precision_idempotent
    (doc v : Config.value) (σ σ' : Config.store) :
  Config._set_precision doc σ = (Ret v, σ') →
  Config._set_precision v σ' = (Ret v, σ').
Proof.
  intros Hrun.
  destruct (set_precision_Ret_inv doc σ v σ' Hrun)
    as (r & items & -> & -> & Hr & [[Hp ->]|[(key & Hp & Hkey & ->)|Hres]]).
  - exact Hrun.
  - exact Hrun.
  - destruct Hres
      as (name & np & th & lm & ld & Hp & Hreg & Hm & Hmm & Hds & Hmd & ->).
    set (σ1 := Config.write_item σ lm "precision" (Config.VTorch th)).
    set (σ2 := Config.write_item σ1 ld "precision" (Config.VNumpy np)).
    assert (Hmd1 : Config.is_mapping σ1 (Config.VRef ld))
      by by apply write_item_mapping.
    destruct Hmm as (? & mm & [= <-] & Hlm).
    destruct Hmd1 as (? & md & [= <-] & Hld).
    destruct (decide (r = ld)) as [->|Hrld].
    { (* the root is the dataset section: it now holds the numpy dtype *)
      assert (Hroot : σ2 !! ld
                = Some (Config.ODict (<["precision" := Config.VNumpy np]> md))).
      { unfold σ2, Config.write_item. rewrite Hld. apply lookup_insert_eq. }
      rewrite (set_precision_present _ _ _ _ Hroot (lookup_insert_eq _ _ _)).
      done. }
    destruct (decide (r = lm)) as [->|Hrlm].
    { (* the root is the model section: it now holds the torch dtype *)
      assert (Hroot : σ2 !! lm
                = Some (Config.ODict (<["precision" := Config.VTorch th]> mm))).
      { unfold σ2, Config.write_item at 1. rewrite Hld.
        rewrite lookup_insert_ne by done.
        unfold σ1, Config.write_item. rewrite Hlm. apply lookup_insert_eq. }
      rewrite (set_precision_present _ _ _ _ Hroot (lookup_insert_eq _ _ _)).
      done. }
    (* the root is neither section: the same two values are written again *)
    assert (Hroot : σ2 !! r = Some (Config.ODict items)).
    { unfold σ2, Config.write_item at 1. rewrite Hld.
      rewrite lookup_insert_ne by done.
      unfold σ1, Config.write_item. rewrite Hlm.
      by rewrite lookup_insert_ne. }
    rewrite (set_precision_resolved σ2 r items name np th lm ld Hroot Hp Hreg Hm
               ltac:(do 2 apply write_item_mapping; by eexists _, _) Hds
               ltac:(do 2 apply write_item_mapping;
                     apply (write_item_mapping σ lm "precision" (Config.VTorch th));
                     by eexists _, _)).
    f_equal.
    destruct (decide (lm = ld)) as [->|Hne].
    + unfold σ2, σ1. by rewrite !write_item_twice.
    + assert (Hwm : Config.write_item σ2 lm "precision" (Config.VTorch th) = σ2).
      { apply write_item_same
          with (items := <["precision" := Config.VTorch th]> mm).
        - unfold σ2, Config.write_item at 1. rewrite Hld.
          rewrite lookup_insert_ne by done.
          unfold σ1, Config.write_item. rewrite Hlm. apply lookup_insert_eq.
        - apply lookup_insert_eq. }
      rewrite Hwm.
      apply write_item_same
        with (items := <["precision" := Config.VNumpy np]> md).
      * unfold σ2, Config.write_item. rewrite Hld. apply lookup_insert_eq.
      * apply lookup_insert_eq.
Qed.

Lemma set_precision_idempotent_witness :
  Config._set_precision (Config.VRef root)
    (Config._set_precision (Config.VRef root) doc_float32).2
  = (Ret (Config.VRef root),
     (Config._set_precision (Config.VRef root) doc_float32).2)
  ∧ Config._set_precision (Config.VRef root)
      (Config._set_precision (Config.VRef root) doc_root_is_model).2
    = (Ret (Config.VRef root),
       (Config._set_precision (Config.VRef root) doc_root_is_model).2).
Proof.
  split.
  - apply (set_precision_idempotent (Config.VRef root) (Config.VRef root)
             doc_float32).
    reflexivity.
  - apply (set_precision_idempotent (Config.VRef root) (Config.VRef root)
             doc_root_is_model).
    reflexivity.
Defined.

(** A file whose parse is no mapping (an empty file gives [None], a
    sequence gives a list, a bare scalar gives itself) makes [get_args] raise
    [AttributeError], with nothing written. *)
Theorem get_args_not_a_mapping
    (load : string → M Config.store Config.value) (path : string)
    (σ σ1 : Config.store) (v : Config.value) :
  load path σ = (Ret v, σ1) →
  (∀ l, v = Config.VRef l → ∃ xs, σ1 !! l = Some (Config.OList xs)) →
  Config.get_args load path σ = (Raise AttributeError, σ1).
Proof.
  intros Hload Hv. rewrite (get_args_loaded _ _ _ _ _ Hload).
  destruct v as [| | | | |l| |];
    try (by apply set_precision_not_a_dict).
  destruct (Hv l eq_refl) as (xs & Hl).
  unfold Config._set_precision, bind, Config.keys_contains. by rewrite Hl.
Qed.

Lemma get_args_not_a_mapping_witness :
  Config.get_args (example_loader Config.VNone ∅) "config.yaml" ∅
  = (Raise AttributeError, ∅).
Proof.
  apply (get_args_not_a_mapping (example_loader Config.VNone ∅) "config.yaml"
           ∅ ∅ Config.VNone).
  - reflexivity.
  - intros l Hl. discriminate Hl.
Defined.

(** A list or a mapping under the root ["precision"] cannot be looked up
    in the table: [get_args] raises [TypeError] and has written nothing,
    whatever the sections are. *)
Theorem get_args_unhashable_precision
    (load : string → M Config.store Config.value) (path : string)
    (σ σ1 : Config.store) (d l : Config.loc)
    (items : gmap string Config.value) :
  load path σ = (Ret (Config.VRef d), σ1) →
  σ1 !! d = Some (Config.ODict items) →
  items !! "precision" = Some (Config.VRef l) →
  Config.get_args load path σ = (Raise TypeError, σ1).
Proof.
  intros Hload Hd Hp. rewrite (get_args_loaded _ _ _ _ _ Hload).
  by eapply set_precision_unhashable.
Qed.

Lemma get_args_unhashable_precision_witness :
  Config.get_args (example_loader (Config.VRef root) doc_list_precision)
    "config.yaml" ∅
  = (Raise TypeError, doc_list_precision).
Proof.
  eapply (get_args_unhashable_precision
            (example_loader (Config.VRef root) doc_list_precision) "config.yaml"
            ∅ doc_list_precision root 4%positive);
    reflexivity.
Defined.

(** * Further properties of the auto-encoder *)

Section ConstructorFacts.
Import PyFloat.

(** The writer attribute after a construction that returned. *)
Lemma init_writer now get_act conv1d convT1d adamW
    features L extracted latent k s p act_name
    lr lr_decay betas tag log out self out' :
  AE.__init__ now get_act conv1d convT1d adamW features L extracted latent
    k s p act_name lr lr_decay betas tag log out = (Ret self, out') →
  AE._writer self
  = if log then Some ("runs/" +:+ tag +:+ "/AE/" +:+ now) else None.
Proof.
  unfold AE.__init__, bind, lift.
  destruct (get_act act_name) as [act|]; [|done].
  destruct (AE.ef_length_of L k s p) as [ef|]; [|done].
  destruct (AE.ls_length_of ef k s p) as [ls|]; [|done].
  destruct (gt ef ls); simpl;
    destruct (conv1d features extracted k s p) as [c1|]; simpl; try done;
    destruct (conv1d extracted latent k s p) as [c2|]; simpl; try done;
    destruct (convT1d latent extracted k s p) as [d1|]; simpl; try done;
    destruct (convT1d extracted features k s p) as [d2|]; simpl; try done;
    destruct (adamW _ _ lr betas) as [[]|]; simpl; try done;
    by intros [= <- _].
Qed.

(** What the constructor has printed, whatever its outcome. *)
Lemma init_output now get_act conv1d convT1d adamW
    features L extracted latent k s p act_name
    lr lr_decay betas tag log out :
  (AE.__init__ now get_act conv1d convT1d adamW features L extracted latent
     k s p act_name lr lr_decay betas tag log out).2
  = match get_act act_name, AE.shape_lengths L k s p with
    | Ret _, Ret (ef, ls) =>
        if gt ef ls then out ++ [AE.Warning_smaller_than_latent ef ls] else out
    | _, _ => out
    end.
Proof.
  destruct (get_act act_name) as [act|e] eqn:Hact.
  - destruct (AE.shape_lengths L k s p) as [[ef ls]|e] eqn:Hlengths.
    + by apply init_printed with act.
    + unfold AE.__init__, bind, lift. rewrite Hact.
      unfold AE.shape_lengths, obind in Hlengths.
      destruct (AE.ef_length_of L k s p) as [ef|]; [|done].
      by destruct (AE.ls_length_of ef k s p) as [ls|].
  - unfold AE.__init__, bind, lift. by rewrite Hact.
Qed.

Lemma append_inv_head (s a b : string) : s +:+ a = s +:+ b → a = b.
Proof.
  induction s as [|c s IH]; simpl; [done|]. intros [= Heq]. by apply IH.
Qed.
End ConstructorFacts.

(** With a stride of zero the constructor raises [ZeroDivisionError] in
    the shape check and prints nothing, whatever the other parameters, once
    the activation name was found. *)
Theorem init_zero_stride
    (now : string) (get_act : string → outcome nn.Layer)
    (conv1d convT1d : Z → Z → Z → Z → Z → outcome nn.Layer)
    (adamW : nn.Sequential → nn.Sequential → PyFloat.float →
             PyFloat.float * PyFloat.float → outcome unit)
    (features L extracted latent k p : Z) (act_name : string) (act : nn.Layer)
    (lr lr_decay : PyFloat.float) (betas : PyFloat.float * PyFloat.float)
    (tag : string) (log : bool) (out : list AE.printed) :
  get_act act_name = Ret act →
  AE.__init__ now get_act conv1d convT1d adamW features L extracted latent
    k 0 p act_name lr lr_decay betas tag log out = (Raise ZeroDivisionError, out).
Proof.
  intros Hact. unfold AE.__init__, bind, lift. by rewrite Hact.
Qed.

Lemma init_zero_stride_witness :
  example_init 16 3 0 1 = (Raise ZeroDivisionError, []).
Proof.
  apply (init_zero_stride "01012024_120000" example_activations
           example_Conv1d example_ConvTranspose1d example_AdamW 1 16 4 2 3 1
           "relu" nn.ReLU).
  vm_compute; reflexivity.
Defined.

(** Whether the construction returns or raises, it has printed nothing or
    the one warning, and the warning only with lengths the shape check
    computed with [ef_length > ls_length].  A raise of the activation
    lookup or of the shape check leaves nothing printed; once the lengths
    are computed with [ef_length > ls_length] the warning is printed, also
    when a constructor of torch raises afterwards. *)
Theorem init_prints_at_most_the_warning
    (now : string) (get_act : string → outcome nn.Layer)
    (conv1d convT1d : Z → Z → Z → Z → Z → outcome nn.Layer)
    (adamW : nn.Sequential → nn.Sequential → PyFloat.float →
             PyFloat.float * PyFloat.float → outcome unit)
    (features L extracted latent k s p : Z) (act_name : string)
    (lr lr_decay : PyFloat.float) (betas : PyFloat.float * PyFloat.float)
    (tag : string) (log : bool) (out out' : list AE.printed)
    (result : outcome AE.t) :
  AE.__init__ now get_act conv1d convT1d adamW features L extracted latent
    k s p act_name lr lr_decay betas tag log out = (result, out') →
  (out' = out
   ∨ ∃ ef ls,
       out' = out ++ [AE.Warning_smaller_than_latent ef ls]
       ∧ AE.shape_lengths L k s p = Ret (ef, ls)
       ∧ PyFloat.gt ef ls = true)
  ∧ (∀ e, get_act act_name = Raise e → result = Raise e ∧ out' = out)
  ∧ (∀ e, AE.shape_lengths L k s p = Raise e → out' = out)
  ∧ (∀ act ef ls,
       get_act act_name = Ret act →
       AE.shape_lengths L k s p = Ret (ef, ls) →
       PyFloat.gt ef ls = true →
       out' = out ++ [AE.Warning_smaller_than_latent ef ls]).
Proof.
  intros Hrun.
  pose proof (init_output now get_act conv1d convT1d adamW features L
                extracted latent k s p act_name lr lr_decay betas tag log out)
    as Hout.
  rewrite Hrun in Hout. simpl in Hout.
  split_and!; [| | |by intros act ef ls Hact Hlengths Hgt;
                       rewrite Hact, Hlengths, Hgt in Hout].
  - destruct (get_act act_name) as [act|]; [|by left].
    destruct (AE.shape_lengths L k s p) as [[ef ls]|]; [|by left].
    destruct (PyFloat.gt ef ls) eqn:Hgt; [|by left].
    right. by exists ef, ls.
  - intros e He. rewrite He in Hout. split; [|done].
    unfold AE.__init__, bind, lift in Hrun. rewrite He in Hrun.
    by injection Hrun as <- _.
  - intros e He. rewrite He in Hout. by destruct (get_act act_name).
Qed.

Lemma init_prints_at_most_the_warning_witness :
  ∃ ef ls,
    [AE.Warning_smaller_than_latent (PyFloat.dyadic 7 (-1)) (PyFloat.dyadic 1 (-2))]
    = [] ++ [AE.Warning_smaller_than_latent ef ls]
    ∧ AE.shape_lengths 10 5 2 0 = Ret (ef, ls)
    ∧ PyFloat.gt ef ls = true.
Proof.
  eassert (Hrun : AE.__init__ "01012024_120000" example_activations
                    example_Conv1d example_ConvTranspose1d example_AdamW
                    (-1) 10 4 2 5 2 0 "relu"
                    (PyFloat.dyadic 1 (-10)) (PyFloat.dyadic 7 (-3))
                    (PyFloat.dyadic 7 (-3), PyFloat.dyadic 15 (-4)) "" false []
                  = (Raise _, _))
    by (vm_compute; reflexivity).
  destruct (init_prints_at_most_the_warning _ _ _ _ _ _ _ _ _ _ _ _ _ _ _ _ _ _
              _ _ _ Hrun) as [[Hnone|Hwarned] _].
  - discriminate Hnone.
  - exact Hwarned.
Defined.

(** For one tag, the auto-encoder and the variational auto-encoder never
    log to the same directory, whenever each is built; and without logging
    [_init_writer] leaves the writer attributes as they are. *)
Theorem writer_paths_differ
    (now : string) (get_act : string → outcome nn.Layer)
    (conv1d convT1d : Z → Z → Z → Z → Z → outcome nn.Layer)
    (adamW : nn.Sequential → nn.Sequential → PyFloat.float →
             PyFloat.float * PyFloat.float → outcome unit)
    (features L extracted latent k s p : Z) (act_name : string)
    (lr lr_decay : PyFloat.float) (betas : PyFloat.float * PyFloat.float)
    (tag : string) (out out' : list AE.printed) (self : AE.t)
    (now' name : string) (attributes : option ConvVAE.writer_attributes) :
  AE.__init__ now get_act conv1d convT1d adamW features L extracted latent
    k s p act_name lr lr_decay betas tag true out = (Ret self, out') →
  ∃ ae_path vae,
    AE._writer self = Some ae_path
    ∧ ConvVAE._init_writer now' attributes name tag true = Some vae
    ∧ ae_path ≠ ConvVAE._tb_path vae
    ∧ ConvVAE._writer vae = ConvVAE._tb_path vae
    ∧ ConvVAE._init_writer now' attributes name tag false = attributes.
Proof.
  intros Hrun. apply init_writer in Hrun.
  eexists _, _. split; [exact Hrun|]. split; [reflexivity|].
  split_and!; [|done|done].
  simpl. intros [= Heq]. apply (append_inv_head tag) in Heq.
  discriminate Heq.
Qed.

Lemma writer_paths_differ_witness :
  ∃ self out' ae_path vae,
    AE.__init__ "01012024_120000" example_activations
      example_Conv1d example_ConvTranspose1d example_AdamW
      1 10 4 2 3 1 1 "relu"
      (PyFloat.dyadic 1 (-10)) (PyFloat.dyadic 7 (-3))
      (PyFloat.dyadic 7 (-3), PyFloat.dyadic 15 (-4)) "exp1" true []
    = (Ret self, out')
    ∧ AE._writer self = Some ae_path
    ∧ ConvVAE._init_writer "01012024_120000" None "VAE" "exp1" true = Some vae
    ∧ ae_path ≠ ConvVAE._tb_path vae.
Proof.
  eassert (Hrun : AE.__init__ "01012024_120000" example_activations
                    example_Conv1d example_ConvTranspose1d example_AdamW
                    1 10 4 2 3 1 1 "relu"
                    (PyFloat.dyadic 1 (-10)) (PyFloat.dyadic 7 (-3))
                    (PyFloat.dyadic 7 (-3), PyFloat.dyadic 15 (-4)) "exp1" true []
                  = (Ret _, _))
    by (vm_compute; reflexivity).
  destruct (writer_paths_differ _ _ _ _ _ _ _ _ _ _ _ _ _ _ _ _ _ _ _ _
              "01012024_120000" "VAE" None Hrun)
    as (ae_path & vae & Hae & Hvae & Hdiff & _).
  eexists _, _, ae_path, vae.
  split_and!; [exact Hrun|exact Hae|exact Hvae|exact Hdiff].
Defined.

Section FreezeMoreFacts.
Implicit Types (b : bool) (p : nn.Param) (ps : list nn.Param)
  (m : nn.Layer) (s : nn.Sequential).

Lemma set_module_grad_set_module_grad b1 b2 m :
  nn.set_module_grad b2 (nn.set_module_grad b1 m) = nn.set_module_grad b2 m.
Proof.
  destruct m; simpl; try done.
  f_equal. rewrite <- list_fmap_compose. by apply list_fmap_ext.
Qed.

Lemma set_seq_grad_set_seq_grad b1 b2 s :
  nn.set_seq_grad b2 (nn.set_seq_grad b1 s) = nn.set_seq_grad b2 s.
Proof.
  unfold nn.set_seq_grad. rewrite <- list_fmap_compose.
  apply list_fmap_ext. intros _ m _. apply set_module_grad_set_module_grad.
Qed.

Lemma set_requires_grad_id p :
  nn.requires_grad p = true → nn.set_requires_grad true p = p.
Proof. destruct p as [sh rg]. simpl. by intros ->. Qed.

Lemma set_params_id ps :
  Forall (λ p, nn.requires_grad p = true) ps →
  nn.set_requires_grad true <$> ps = ps.
Proof.
  induction 1 as [|p ps Hp _ IH]; [done|].
  rewrite fmap_cons, IH. by rewrite set_requires_grad_id.
Qed.

Lemma set_module_grad_id m :
  Forall (λ p, nn.requires_grad p = true) (nn.parameters m) →
  nn.set_module_grad true m = m.
Proof.
  destruct m; simpl; try done.
  - intros [Hw [Hb _]%Forall_cons]%Forall_cons.
    by rewrite !set_requires_grad_id.
  - intros [Hw [Hb _]%Forall_cons]%Forall_cons.
    by rewrite !set_requires_grad_id.
  - intros [Hw [Hb _]%Forall_cons]%Forall_cons.
    by rewrite !set_requires_grad_id.
  - intros Hps. by rewrite set_params_id.
Qed.

Lemma set_seq_grad_id s :
  Forall (λ p, nn.requires_grad p = true) (nn.seq_parameters s) →
  nn.set_seq_grad true s = s.
Proof.
  unfold nn.seq_parameters, nn.set_seq_grad.
  induction s as [|m s IH]; [done|].
  rewrite bind_cons. intros [Hm Hs]%Forall_app.
  rewrite fmap_cons, IH by done. by rewrite set_module_grad_id.
Qed.
End FreezeMoreFacts.

(** Of two calls of [AE.freeze] the second decides: the model is the one
    that the second call alone gives.  Calling it twice with one argument
    is the case of equal arguments. *)
Theorem AE_freeze_last_call_decides (self : AE.t) (first second : bool) :
  AE.freeze (AE.freeze self first) second = AE.freeze self second.
Proof.
  unfold AE.freeze. simpl. by rewrite !set_seq_grad_set_seq_grad.
Qed.

(** [AE.freeze] writes the flag [not unfreeze] on the parameters of the
    encoder and the decoder and changes nothing else of them: the
    parameters keep their number, order and shapes, and the modules are the
    same but for the flags.  The object under [_last_activation] is the
    decoder's last module, so the call has written the flag on its
    parameters too; it is left as it was when it owns none. *)
Theorem AE_freeze_changes_flags_only (self : AE.t) (unfreeze : bool) :
  AE.codec_parameters (AE.freeze self unfreeze)
  = nn.set_requires_grad (negb unfreeze) <$> AE.codec_parameters self
  ∧ nn.shape <$> AE.codec_parameters (AE.freeze self unfreeze)
    = nn.shape <$> AE.codec_parameters self
  ∧ (∀ b, nn.set_seq_grad b (AE._encoder (AE.freeze self unfreeze))
          = nn.set_seq_grad b (AE._encoder self))
  ∧ (∀ b, nn.set_seq_grad b (AE._decoder (AE.freeze self unfreeze))
          = nn.set_seq_grad b (AE._decoder self))
  ∧ AE._last_activation (AE.freeze self unfreeze)
    = nn.set_module_grad (negb unfreeze) <$> AE._last_activation self
  ∧ (∀ activation,
       AE._last_activation self = Some activation →
       nn.parameters activation = [] →
       AE._last_activation (AE.freeze self unfreeze) = Some activation).
Proof.
  assert (Hlast : AE._last_activation (AE.freeze self unfreeze)
                  = nn.set_module_grad (negb unfreeze) <$> AE._last_activation self).
  { unfold AE._last_activation, AE.freeze, nn.set_seq_grad. simpl.
    apply fmap_last. }
  split_and!; [| | | |done|].
  - apply AE_codec_parameters_freeze.
  - rewrite AE_codec_parameters_freeze, <- list_fmap_compose.
    by apply list_fmap_ext.
  - intros b. simpl. apply set_seq_grad_set_seq_grad.
  - intros b. simpl. apply set_seq_grad_set_seq_grad.
  - intros activation Hact Hnone. rewrite Hlast, Hact. simpl. f_equal.
    destruct activation; simpl in *; try done. by rewrite Hnone.
Qed.

Lemma AE_freeze_changes_flags_only_witness :
  ∃ self,
    AE.__init__ "01012024_120000" example_parametric_activations
      example_Conv1d example_ConvTranspose1d example_AdamW
      1 10 4 2 3 1 1 "prelu"
      (PyFloat.dyadic 1 (-10)) (PyFloat.dyadic 7 (-3))
      (PyFloat.dyadic 7 (-3), PyFloat.dyadic 15 (-4)) "" false []
    = (Ret self, [])
    ∧ AE._last_activation self
      = Some (nn.Activation "prelu" [nn.new_parameter [1%Z]])
    ∧ AE._last_activation (AE.freeze self true)
      = Some (nn.Activation "prelu"
                [nn.set_requires_grad false (nn.new_parameter [1%Z])])
    ∧ AE._last_activation (AE.freeze self false)
      = Some (nn.Activation "prelu" [nn.new_parameter [1%Z]]).
Proof.
  eassert (Hrun : AE.__init__ "01012024_120000" example_parametric_activations
                    example_Conv1d example_ConvTranspose1d example_AdamW
                    1 10 4 2 3 1 1 "prelu"
                    (PyFloat.dyadic 1 (-10)) (PyFloat.dyadic 7 (-3))
                    (PyFloat.dyadic 7 (-3), PyFloat.dyadic 15 (-4)) "" false []
                  = (Ret _, _))
    by (vm_compute; reflexivity).
  eexists. split; [exact Hrun|]. split; [reflexivity|].
  split.
  - match goal with
    | |- AE._last_activation (AE.freeze ?self _) = _ =>
        destruct (AE_freeze_changes_flags_only self true)
          as (_ & _ & _ & _ & Hlast & _)
    end.
    rewrite Hlast. reflexivity.
  - match goal with
    | |- AE._last_activation (AE.freeze ?self _) = _ =>
        destruct (AE_freeze_changes_flags_only self false)
          as (_ & _ & _ & _ & Hlast & _)
    end.
    rewrite Hlast. reflexivity.
Defined.

(** On a model whose encoder and decoder parameters are all trainable, as
    after construction, [freeze()] with its default argument changes
    nothing, and [freeze(True)] followed by [freeze(False)] gives the model
    back. *)
Theorem AE_freeze_round_trip (self : AE.t) :
  Forall (λ p, nn.requires_grad p = true) (AE.codec_parameters self) →
  AE.freeze self false = self
  ∧ AE.freeze (AE.freeze self true) false = self.
Proof.
  unfold AE.codec_parameters. intros [Henc Hdec]%Forall_app.
  assert (Hid : AE.freeze self false = self).
  { unfold AE.freeze. simpl. rewrite !set_seq_grad_id by done. by destruct self. }
  split; [done|].
  unfold AE.freeze at 2. unfold AE.freeze in Hid. simpl in *.
  unfold AE.freeze. simpl. by rewrite !set_seq_grad_set_seq_grad.
Qed.

Lemma AE_freeze_round_trip_witness :
  ∃ self,
    example_init 10 3 1 1 = (Ret self, [])
    ∧ AE.freeze self false = self
    ∧ AE.freeze (AE.freeze self true) false = self.
Proof.
  eexists. split; [vm_compute; reflexivity|].
  apply AE_freeze_round_trip. vm_compute. repeat constructor.
Defined.

(** [ConvVAE.freeze] writes the flag [not unfreeze] on the parameters of
    the two projection layers, which keep their number, order and shapes;
    the layers are the same but for the flags, and of two calls the second
    decides what they hold. *)
Theorem ConvVAE_freeze_projection_layers
    (self : ConvVAE.t) (unfreeze first : bool) :
  ConvVAE.projection_parameters (ConvVAE.freeze self unfreeze)
  = nn.set_requires_grad (negb unfreeze) <$> ConvVAE.projection_parameters self
  ∧ (∀ b, nn.set_module_grad b (ConvVAE._mean_layer (ConvVAE.freeze self unfreeze))
          = nn.set_module_grad b (ConvVAE._mean_layer self))
  ∧ (∀ b, nn.set_module_grad b (ConvVAE._var_layer (ConvVAE.freeze self unfreeze))
          = nn.set_module_grad b (ConvVAE._var_layer self))
  ∧ ConvVAE._mean_layer (ConvVAE.freeze (ConvVAE.freeze self first) unfreeze)
    = ConvVAE._mean_layer (ConvVAE.freeze self unfreeze)
  ∧ ConvVAE._var_layer (ConvVAE.freeze (ConvVAE.freeze self first) unfreeze)
    = ConvVAE._var_layer (ConvVAE.freeze self unfreeze).
Proof.
  split_and!.
  - apply ConvVAE_projection_parameters_freeze.
  - intros b. simpl. apply set_module_grad_set_module_grad.
  - intros b. simpl. apply set_module_grad_set_module_grad.
  - simpl. apply set_module_grad_set_module_grad.
  - simpl. apply set_module_grad_set_module_grad.
Qed.

Section SequentialFacts.
Context {tensor : Type}.
Variable module_forward : nn.Layer → tensor → outcome tensor.

Lemma sequential_raise (layers : nn.Sequential) (e : exn) :
  foldl (λ acc layer, let? x := acc in module_forward layer x) (Raise e) layers
  = Raise e.
Proof. by induction layers. Qed.

Lemma sequential_app (first second : nn.Sequential) (x : tensor) :
  AE.sequential module_forward (first ++ second) x
  = let? y := AE.sequential module_forward first x in
    AE.sequential module_forward second y.
Proof.
  unfold AE.sequential. rewrite foldl_app.
  destruct (foldl _ (Ret x) first) as [y|e]; simpl; [done|].
  apply sequential_raise.
Qed.
End SequentialFacts.

(** [AE.forward] is [decode] after [encode], and the same as running the
    layers of the encoder followed by those of the decoder as one stack,
    whatever [future_steps] is; when a layer raises, that is the result of
    the whole pass. *)
Theorem AE_forward_is_decode_after_encode {tensor : Type}
    (module_forward : nn.Layer → tensor → outcome tensor)
    (self : AE.t) (x : tensor) (future_steps : Z) :
  AE.forward module_forward self x future_steps
  = AE.sequential module_forward (AE._encoder self ++ AE._decoder self) x
  ∧ AE.forward module_forward self x future_steps
    = (let? z := AE.encode module_forward self x in
       AE.decode module_forward self z)
  ∧ (∀ before layer after y e,
       AE._encoder self ++ AE._decoder self = before ++ layer :: after →
       AE.sequential module_forward before x = Ret y →
       module_forward layer y = Raise e →
       AE.forward module_forward self x future_steps = Raise e).
Proof.
  assert (Hstack : AE.forward module_forward self x future_steps
                   = AE.sequential module_forward
                       (AE._encoder self ++ AE._decoder self) x).
  { unfold AE.forward. by rewrite sequential_app. }
  split_and!; [done|done|].
  intros before layer after y e Hlayers Hbefore Hlayer.
  rewrite Hstack, Hlayers, sequential_app, Hbefore. simpl.
  unfold AE.sequential. simpl. rewrite Hlayer. apply sequential_raise.
Qed.

Lemma AE_forward_is_decode_after_encode_witness :
  ∃ self,
    example_init 10 3 1 1 = (Ret self, [])
    ∧ AE.forward example_failing_forward self 0 5
      = Raise (RuntimeError "expected a 3-dimensional input").
Proof.
  eexists. split; [vm_compute; reflexivity|].
  eapply (AE_forward_is_decode_after_encode example_failing_forward _ 0 5)
    with (before := [nn.new_Conv1d 1 4 3 1 1]) (layer := nn.ReLU) (y := 1);
    reflexivity.
Defined.

(** * Further properties of the variational auto-encoder *)

Section SamplingFacts.
Import torch.

Lemma view_numel x sh t :
  view x sh = Ret t → numel sh = length (data t).
Proof. unfold view. case_decide; [|done]. by intros [= <-]. Qed.
End SamplingFacts.

(** [_encode] returns the mean and the log-variance under one
    four-dimensional shape, each with as many elements as the shape has
    places, and [encode] returns that mean. *)
Theorem encode_results_share_shape
    (module_forward : nn.Layer → torch.tensor → outcome torch.tensor)
    (swapaxes : torch.tensor → nat → nat → outcome torch.tensor)
    (relu : torch.tensor → torch.tensor)
    (self : ConvVAE.t) (x mean log_var : torch.tensor) :
  ConvVAE._encode module_forward swapaxes relu self x = Ret (mean, log_var) →
  ∃ batch channels features samples,
    torch.shape mean = [batch; channels; features; samples]
    ∧ torch.shape log_var = [batch; channels; features; samples]
    ∧ length (torch.data mean) = batch * channels * features * samples
    ∧ length (torch.data log_var) = batch * channels * features * samples
    ∧ ConvVAE.encode module_forward swapaxes relu self x = Ret mean.
Proof.
  intros Hencode.
  assert (Hmean : ConvVAE.encode module_forward swapaxes relu self x = Ret mean)
    by (unfold ConvVAE.encode; by rewrite Hencode).
  unfold ConvVAE._encode, obind in Hencode.
  destruct (swapaxes x 1 3) as [x1|]; [|done].
  destruct (swapaxes x1 2 1) as [x2|]; [|done].
  destruct (module_forward _ x2) as [x3|]; [|done].
  destruct (module_forward _ (relu x3)) as [x4|]; [|done].
  destruct (torch.shape (relu x4)) as [|b [|c [|f [|sa [|]]]]]; try done.
  destruct (torch.view (relu x4) _) as [flat|]; [|done].
  destruct (module_forward _ flat) as [pm|]; [|done].
  destruct (torch.view pm _) as [m|] eqn:Hm; [|done].
  destruct (module_forward _ flat) as [pv|]; [|done].
  destruct (torch.view pv _) as [v|] eqn:Hv; [|done].
  injection Hencode as <- <-.
  exists b, c, f, sa.
  pose proof (view_numel _ _ _ Hm) as Hnm.
  pose proof (view_numel _ _ _ Hv) as Hnv.
  apply view_inv in Hm as [Hsm _]. apply view_inv in Hv as [Hsv _].
  unfold torch.numel in Hnm, Hnv. simpl in Hnm, Hnv.
  split_and!; [done|done|lia|lia|done].
Qed.

Lemma encode_results_share_shape_witness :
  ∃ mean log_var batch channels features samples,
    ConvVAE._encode example_module_forward example_swapaxes example_relu
      example_vae example_input = Ret (mean, log_var)
    ∧ torch.shape mean = [batch; channels; features; samples]
    ∧ torch.shape log_var = [batch; channels; features; samples]
    ∧ length (torch.data mean) = batch * channels * features * samples.
Proof.
  eassert (Hrun : ConvVAE._encode example_module_forward example_swapaxes
                    example_relu example_vae example_input = Ret (_, _))
    by (vm_compute; reflexivity).
  destruct (encode_results_share_shape _ _ _ _ _ _ _ Hrun)
    as (b & c & f & sa & Hm & Hv & Hlen & _ & _).
  eexists _, _, b, c, f, sa. split_and!; [exact Hrun|exact Hm|exact Hv|exact Hlen].
Defined.
